(** * The SysML [Model] namespace (sysml/system.py)

    A shallow embedding of the class [Model]: the two schema tables, the
    keyed store with its accessors, the key generator, the validators and
    the insertion paths, over a small heap of Python objects.  Python's
    exceptions are values of [exn]; every method returns a [result]. *)

From stdpp Require Import base strings list gmap pretty.
From Stdlib Require Import Ascii ZArith Lia.

Open Scope string_scope.

(** ** Python values *)

Definition loc := nat.

(** The classes of [sysml.elements] that the schema tables name, and any
    other class. *)
Inductive pyclass :=
| Block
| Requirement
| ConstraintBlock
| Package
| OtherClass (name : string).

Global Instance pyclass_eq_dec : EqDecision pyclass.
Proof. solve_decision. Defined.

(** The values the model ranges over.  Instances and dicts are references:
    two values with the same location are the same object. *)
Inductive value :=
| VNone
| VInt (n : Z)
| VStr (s : string)
| VInst (c : pyclass) (l : loc)
| VDict (l : loc).

Global Instance value_eq_dec : EqDecision value.
Proof. solve_decision. Defined.

Definition class_name (c : pyclass) : string :=
  match c with
  | Block => "Block"
  | Requirement => "Requirement"
  | ConstraintBlock => "ConstraintBlock"
  | Package => "Package"
  | OtherClass n => n
  end.

Definition type_name (v : value) : string :=
  match v with
  | VNone => "NoneType"
  | VInt _ => "int"
  | VStr _ => "str"
  | VInst c _ => class_name c
  | VDict _ => "dict"
  end.

(** [type(v)] when it is a class of the program, [None] for a builtin type. *)
Definition class_of (v : value) : option pyclass :=
  match v with
  | VInst c _ => Some c
  | _ => None
  end.

(** [type(v) in cs] for a list of classes. *)
Definition type_in (v : value) (cs : list pyclass) : bool :=
  match class_of v with
  | Some c => bool_decide (c ∈ cs)
  | None => false
  end.

(** ** Exceptions and results *)

Inductive exn :=
| TypeError (msg : string)
| ValueError (msg : string)
| AttributeError (msg : string)
| NameError (msg : string)
| KeyError (key : value).

Inductive result (A : Type) :=
| Ok (a : A)
| Raise (e : exn).
Arguments Ok {A} a.
Arguments Raise {A} e.

(** Sequencing: an exception ends the computation. *)
Definition bind {A B} (r : result A) (k : A → result B) : result B :=
  match r with
  | Ok a => k a
  | Raise e => Raise e
  end.

Notation "'let!' x := r 'in' k" := (bind r (λ x, k))
  (at level 10, x name, r at level 200, k at level 200, only parsing).

Definition is_TypeError {A} (r : result A) : bool :=
  match r with Raise (TypeError _) => true | _ => false end.
Definition is_ValueError {A} (r : result A) : bool :=
  match r with Raise (ValueError _) => true | _ => false end.
Definition is_AttributeError {A} (r : result A) : bool :=
  match r with Raise (AttributeError _) => true | _ => false end.
Definition is_NameError {A} (r : result A) : bool :=
  match r with Raise (NameError _) => true | _ => false end.

(** Messages of the interpreter's own exceptions (CPython 3). *)
Definition no_attribute (ty attr : string) : exn :=
  AttributeError ("'" ++ ty ++ "' object has no attribute '" ++ attr ++ "'").
Definition not_defined (name : string) : exn :=
  NameError ("name '" ++ name ++ "' is not defined").
Definition unhashable (v : value) : exn :=
  TypeError ("unhashable type: '" ++ type_name v ++ "'").
Definition bad_operand (v : value) : exn :=
  TypeError ("unsupported operand type(s) for +: '" ++ type_name v ++ "' and 'str'").

(** [v + s] for a string [s]. *)
Definition add_str (v : value) (s : string) : result string :=
  match v with
  | VStr a => Ok (a ++ s)
  | _ => Raise (bad_operand v)
  end.

(** ** Strings: [str.split], [int] *)

(** [s.split(sep)] for a one-character separator. *)
Fixpoint split (sep : ascii) (s : string) : list string :=
  match s with
  | EmptyString => [EmptyString]
  | String c s' =>
      if Ascii.eqb c sep then EmptyString :: split sep s'
      else match split sep s' with
           | p :: ps => String c p :: ps
           | [] => [String c EmptyString]
           end
  end.

(** [key.split('-')] on a value: only [str] has the method. *)
Definition py_split (key : value) : result (list string) :=
  match key with
  | VStr s => Ok (split "-"%char s)
  | _ => Raise (no_attribute (type_name key) "split")
  end.

(** [a, b = parts] *)
Definition unpack2 (parts : list string) : result (string * string) :=
  match parts with
  | [a; b] => Ok (a, b)
  | [] | [_] =>
      Raise (ValueError ("not enough values to unpack (expected 2, got "
                           ++ pretty (length parts) ++ ")"))
  | _ => Raise (ValueError "too many values to unpack (expected 2)")
  end.

(** The whitespace [int] skips around an ASCII numeral: tab to carriage
    return, and the space. *)
Definition is_space (c : ascii) : bool :=
  let n := nat_of_ascii c in
  (((9 <=? n) && (n <=? 13)) || (n =? 32))%nat.

Definition is_digit (c : ascii) : bool :=
  let n := nat_of_ascii c in ((48 <=? n) && (n <=? 57))%nat.

Fixpoint lstrip (s : string) : string :=
  match s with
  | String c s' => if is_space c then lstrip s' else s
  | EmptyString => EmptyString
  end.

Fixpoint rstrip (s : string) : string :=
  match s with
  | EmptyString => EmptyString
  | String c s' =>
      match rstrip s' with
      | EmptyString => if is_space c then EmptyString else String c EmptyString
      | r => String c r
      end
  end.

(** Decimal digits, single underscores allowed between digits. *)
Fixpoint digits (acc : Z) (after_digit : bool) (s : string) : option Z :=
  match s with
  | EmptyString => if after_digit then Some acc else None
  | String c s' =>
      if is_digit c
      then digits (10 * acc + Z.of_nat (nat_of_ascii c - 48)) true s'
      else if Ascii.eqb c "_"%char && after_digit then digits acc false s'
      else None
  end.

(** [int(s)] on ASCII text: surrounding whitespace, an optional sign, then
    digits.  [None] is the [ValueError] of a failed parse. *)
Definition parse_int (s : string) : option Z :=
  match rstrip (lstrip s) with
  | String "+"%char r => digits 0 false r
  | String "-"%char r => Z.opp <$> digits 0 false r
  | t => digits 0 false t
  end.

Definition py_int (s : string) : result Z :=
  match parse_int s with
  | Some n => Ok n
  | None => Raise (ValueError ("invalid literal for int() with base 10: '" ++ s ++ "'"))
  end.

(** ** Dicts

    A dict is the list of its items in insertion order.  Every value of the
    model but a dict is hashable; keys are compared as values. *)

Definition dict := list (value * value).

Definition hashable (k : value) : bool :=
  match k with VDict _ => false | _ => true end.

Fixpoint dict_get (k : value) (d : dict) : option value :=
  match d with
  | [] => None
  | (k', v) :: d' => if bool_decide (k = k') then Some v else dict_get k d'
  end.

(** The effect of [d[k] = v]: an existing key keeps its position. *)
Fixpoint dict_set (k v : value) (d : dict) : dict :=
  match d with
  | [] => [(k, v)]
  | (k', v') :: d' =>
      if bool_decide (k = k') then (k, v) :: d' else (k', v') :: dict_set k v d'
  end.

(** The effect of [del d[k]]. *)
Fixpoint dict_del (k : value) (d : dict) : dict :=
  match d with
  | [] => []
  | (k', v') :: d' =>
      if bool_decide (k = k') then d' else (k', v') :: dict_del k d'
  end.

Definition dict_keys (d : dict) : list value := d.*1.

Definition dict_has (k : value) (d : dict) : bool :=
  match dict_get k d with Some _ => true | None => false end.

(** [k in d.keys()] *)
Definition key_in (k : value) (d : dict) : result bool :=
  if hashable k then Ok (dict_has k d) else Raise (unhashable k).

(** [d[k]] *)
Definition dict_item (d : dict) (k : value) : result value :=
  if hashable k
  then match dict_get k d with
       | Some v => Ok v
       | None => Raise (KeyError k)
       end
  else Raise (unhashable k).

(** [d[k] = v] *)
Definition dict_store (d : dict) (k v : value) : result dict :=
  if hashable k then Ok (dict_set k v d) else Raise (unhashable k).

(** ** The heap

    The contents of the dict objects, the attributes of the instances, the
    next free location and the number of identifiers drawn so far from
    [uuid.uuid1].  A dict that was never written is empty. *)

Record state := State {
  dicts : gmap loc dict;
  attrs : gmap (loc * string) value;
  next_loc : loc;
  uuid_calls : nat
}.

Definition the_dict (σ : state) (l : loc) : dict := default [] (dicts σ !! l).

Definition put_dict (l : loc) (d : dict) (σ : state) : state :=
  State (<[l := d]> (dicts σ)) (attrs σ) (next_loc σ) (uuid_calls σ).

Definition put_attr (l : loc) (name : string) (v : value) (σ : state) : state :=
  State (dicts σ) (<[(l, name) := v]> (attrs σ)) (next_loc σ) (uuid_calls σ).

Definition get_attr (σ : state) (l : loc) (name : string) : option value :=
  attrs σ !! (l, name).

Definition tick_uuid (σ : state) : state :=
  State (dicts σ) (attrs σ) (next_loc σ) (S (uuid_calls σ)).

Definition bump_loc (σ : state) : state :=
  State (dicts σ) (attrs σ) (S (next_loc σ)) (uuid_calls σ).

(** [v[k]] for a string [k]; the element classes are taken to define no
    [__getitem__]. *)
Definition subscript (σ : state) (v : value) (k : string) : result value :=
  match v with
  | VDict l => dict_item (the_dict σ l) (VStr k)
  | VStr _ => Raise (TypeError "string indices must be integers")
  | _ => Raise (TypeError ("'" ++ type_name v ++ "' object is not subscriptable"))
  end.

(** [v.name = x]: instances take any attribute, the builtin values none. *)
Definition py_setattr (v : value) (name : string) (x : value) (σ : state)
  : result state :=
  match v with
  | VInst _ l => Ok (put_attr l name x σ)
  | _ => Raise (no_attribute (type_name v) name)
  end.

(** [v.name] *)
Definition py_getattr (σ : state) (v : value) (name : string) : result value :=
  match v with
  | VInst _ l => match get_attr σ l name with
                 | Some x => Ok x
                 | None => Raise (no_attribute (type_name v) name)
                 end
  | _ => Raise (no_attribute (type_name v) name)
  end.

(** ** The class [Model] *)

(** An instance: [_label] and [_elements] are set by the constructor;
    [_relationships] is [None] while the instance has no such attribute. *)
Record Model := {
  _label : value;
  _elements : loc;
  _relationships : option loc
}.

(** The two dicts built once, when the [def] of the constructor is
    executed, as the default values of [elements] and [relationships]. *)
Definition default_elements : loc := 0.
Definition default_relationships : loc := 1.

(** The heap right after the class body has run. *)
Definition initial_state : state := State ∅ ∅ 2 0.

(** [Model(label, elements, relationships)]; [None] is an omitted argument.
    The argument [relationships] is not used. *)
Definition __init__ (label : value) (elements relationships : option loc) : Model :=
  {| _label := label;
     _elements := default default_elements elements;
     _relationships := None |}.

Definition _validElements : list (string * pyclass) :=
  [ ("block", Block);
    ("requirement", Requirement);
    ("constraint", ConstraintBlock);
    ("package", Package) ].

(** kind, allowed source classes, allowed target classes *)
Definition _validRelationships : list (string * (list pyclass * list pyclass)) :=
  [ ("containment", ([Block], [Block]));
    ("inheritance", ([Block], [Block]));
    ("association", ([Block], [Block]));
    ("generalization", ([Block], [Block]));
    ("partProperty", ([Block], [Block]));
    ("valueProperty", ([Block], [Block]));
    ("referenceProperty", ([Block], [Block]));
    ("flowProperty", ([Block], [Block])) ].

Definition invalid_key : string :=
  " is not a valid key. Keys should be a string containing a dash-separated element and integer, e.g., 'partProperty-42' ".

Definition no_relationships : exn := no_attribute "Model" "_relationships".

(** [self._relationships] *)
Definition relationships_attr (self : Model) : result loc :=
  match _relationships self with
  | Some l => Ok l
  | None => Raise no_relationships
  end.

(** [self._validRelationships[relationshipType]] *)
Definition rule_of (relationshipType : value)
  : result (list pyclass * list pyclass) :=
  if hashable relationshipType
  then match relationshipType with
       | VStr k => match list_find (λ e, bool_decide (e.1 = k)) _validRelationships with
                   | Some (_, (_, rule)) => Ok rule
                   | None => Raise (KeyError relationshipType)
                   end
       | _ => Raise (KeyError relationshipType)
       end
  else Raise (unhashable relationshipType).

Definition _isValidElement (element : value) : bool :=
  type_in element (_validElements.*2).

Definition _isValidElementKey (key : value) : result bool :=
  let! parts := py_split key in
  let! pair := unpack2 parts in
  let '(elementName, id_no) := pair in
  if bool_decide (elementName ∈ _validElements.*1)
  then let! n := py_int id_no in Ok true
  else Ok false.

Definition _isValidRelationshipKey (key : value) : result bool :=
  let! parts := py_split key in
  let! pair := unpack2 parts in
  let '(relationship, id_no) := pair in
  if bool_decide (relationship ∈ _validRelationships.*1)
  then let! n := py_int id_no in Ok true
  else Ok false.

Definition _isValidRelationship (self : Model) (relationship : value) (σ : state)
  : result bool :=
  let elements := the_dict σ (_elements self) in
  let! sk := subscript σ relationship "source" in
  let! source := dict_item elements sk in
  let! tk := subscript σ relationship "target" in
  let! target := dict_item elements tk in
  let! relationshipType := subscript σ relationship "relationshipType" in
  let! rule := rule_of relationshipType in
  Ok (type_in source rule.1 && type_in target rule.2).

(** [for id_no in range(1, maxId_no+1)]: the first candidate key that is
    not in [d], if any. *)
Fixpoint probe (kind : string) (d : dict) (ids : list nat) : option value :=
  match ids with
  | [] => None
  | id_no :: ids' =>
      let newKey := VStr (kind ++ "-" ++ pretty id_no) in
      if dict_has newKey d then probe kind d ids' else Some newKey
  end.

(** The ways an element enters a model: [model[key] = element],
    [model.add_elements(element)] and [model.add_package(label)]. *)
Inductive insertion :=
| by_set (key element : value)
| by_add (element : value)
| by_package (label : value).

Section Methods.

(** [repr], the identifiers drawn from [uuid.uuid1] (the n-th call gives
    [uuid1 n]), the strict subclass relation of [sysml.elements], and the
    identity test [v is k] of a value against a key of the schema table
    (the model does not track the identity of strings). *)
Variable repr : value → string.
Variable uuid1 : nat → string.
Variable subclass : pyclass → pyclass → bool.
Variable str_is : value → string → bool.

Definition isinstance (v : value) (cls : pyclass) : bool :=
  match class_of v with
  | Some c => bool_decide (c = cls) || subclass c cls
  | None => false
  end.

(** The element branch of [_generateKey]: both loops. *)
Fixpoint element_key (kinds : list (string * pyclass)) (element : value)
    (d : dict) (maxId_no : nat) : value :=
  match kinds with
  | [] => VNone
  | (validElement, cls) :: kinds' =>
      if isinstance element cls
      then match probe validElement d (seq 1 maxId_no) with
           | Some newKey => newKey
           | None => element_key kinds' element d maxId_no
           end
      else element_key kinds' element d maxId_no
  end.

(** The relationship branch of [_generateKey]: [self._relationships] is
    read at each step of the inner loop. *)
Fixpoint relationship_key (kinds : list string) (self : Model)
    (element : value) (σ : state) (maxId_no : nat) : result value :=
  match kinds with
  | [] => Ok VNone
  | validRelationship :: kinds' =>
      let! relationshipType := subscript σ element "relationshipType" in
      if str_is relationshipType validRelationship
      then match seq 1 maxId_no with
           | [] => relationship_key kinds' self element σ maxId_no
           | ids =>
               let! l := relationships_attr self in
               match probe validRelationship (the_dict σ l) ids with
               | Some newKey => Ok newKey
               | None => relationship_key kinds' self element σ maxId_no
               end
           end
      else relationship_key kinds' self element σ maxId_no
  end.

Definition _generateKey (self : Model) (element : value) (maxId_no : nat)
    (σ : state) : result value :=
  if _isValidElement element
  then Ok (element_key _validElements element (the_dict σ (_elements self)) maxId_no)
  else
    let! valid := _isValidRelationship self element σ in
    if valid
    then relationship_key (_validRelationships.*1) self element σ maxId_no
    else let! msg := add_str element " is not a valid element." in Raise (TypeError msg).

Definition _setElement (self : Model) (key element : value) (σ : state)
    : result state :=
  let! key := (match key with
         | VNone => Raise (TypeError "_generateKey() missing 1 required positional argument: 'maxId_no'")
         | _ => Ok key
         end) in
  if negb (_isValidElement element)
  then Raise (TypeError (repr element ++ " is not a valid model element."))
  else
    let! d := dict_store (the_dict σ (_elements self)) key element in
    let σ := put_dict (_elements self) d σ in
    let id := VStr (uuid1 (uuid_calls σ)) in
    let σ := tick_uuid σ in
    let! stored := dict_item (the_dict σ (_elements self)) key in
    py_setattr stored "uuid" id σ.

(** The names [relationships] and [elementName] are bound neither in
    the method nor in the module: evaluating them raises [NameError]. *)
Definition _setRelationship (self : Model) (key relationship : value)
    (σ : state) : result state :=
  let elements := the_dict σ (_elements self) in
  let! source := subscript σ relationship "source" in
  let! present := key_in source elements in
  if negb present then Raise (not_defined "relationships") else
  let! target := subscript σ relationship "target" in
  let! present := key_in target elements in
  if negb present
  then let! msg := add_str target " does not exist in model." in Raise (TypeError msg)
  else
    let! valid := _isValidRelationship self relationship σ in
    if negb valid
    then let! source := subscript σ relationship "source" in
         let! text := add_str source " and " in
         Raise (not_defined "relationships")
    else
      let! l := relationships_attr self in
      let! d := dict_store (the_dict σ l) key relationship in
      Ok (put_dict l d σ).

Definition __setitem__ (self : Model) (key element : value) (σ : state)
    : result state :=
  let! is_element := _isValidElementKey key in
  if is_element then _setElement self key element σ
  else
    let! is_relationship := _isValidRelationshipKey key in
    if is_relationship then _setRelationship self key element σ
    else Raise (ValueError (repr key ++ invalid_key)).

Definition __getitem__ (self : Model) (key : value) (σ : state) : result value :=
  let elements := the_dict σ (_elements self) in
  let! found := key_in key elements in
  if found then dict_item elements key
  else
    let! l := relationships_attr self in
    let! found := key_in key (the_dict σ l) in
    if found then dict_item (the_dict σ l) key
    else Raise (ValueError (repr key ++ invalid_key)).

(** The property [elements] *)
Definition elements (self : Model) : result value :=
  Ok (VDict (_elements self)).

(** The property [relationships] *)
Definition relationships (self : Model) : result value :=
  let! l := relationships_attr self in Ok (VDict l).

(** The setter of [elements].  [Model] has no method [_setElements]: the
    first step of the loop raises. *)
Definition elements_setter (self : Model) (elements : value) (σ : state)
    : result state :=
  match elements with
  | VDict l =>
      match dict_keys (the_dict σ l) with
      | [] => Ok σ
      | _ :: _ => Raise (no_attribute "Model" "_setElements")
      end
  | _ => Raise (TypeError (repr elements ++ " must be a dictionary."))
  end.

(** The loop of the setter of [relationships] over the keys of the dict
    at [l], which is read again at each step. *)
Fixpoint set_relationships (self : Model) (l : loc) (keys : list value)
    (σ : state) : result state :=
  match keys with
  | [] => Ok σ
  | key :: keys' =>
      let! parts := py_split key in
      let! pair := unpack2 parts in
      let! valid := _isValidRelationshipKey key in
      if negb valid
      then let! msg := add_str key invalid_key in Raise (ValueError msg)
      else
        let! relationship := dict_item (the_dict σ l) key in
        let! σ := _setRelationship self key relationship σ in
        set_relationships self l keys' σ
  end.

Definition relationships_setter (self : Model) (relationships : value)
    (σ : state) : result state :=
  match relationships with
  | VDict l => set_relationships self l (dict_keys (the_dict σ l)) σ
  | _ => Raise (TypeError (repr relationships ++ " must be a dictionary."))
  end.

Fixpoint add_elements (self : Model) (elementv : list value) (σ : state)
    : result state :=
  match elementv with
  | [] => Ok σ
  | element :: elementv' =>
      let! key := _generateKey self element (length (the_dict σ (_elements self)) + 1) σ in
      let! σ := _setElement self key element σ in
      add_elements self elementv' σ
  end.

Fixpoint add_relationships (self : Model) (relationshipv : list value)
    (σ : state) : result state :=
  match relationshipv with
  | [] => Ok σ
  | relationship :: relationshipv' =>
      let! l := relationships_attr self in
      let! key := _generateKey self relationship (length (the_dict σ l) + 1) σ in
      let! σ := _setRelationship self key relationship σ in
      add_relationships self relationshipv' σ
  end.

(** Modelled from the spec: the constructor of [Package], whose module
    sysml/elements.py is not among the sources.  [Package(label)] is a new
    Package object that carries the label. *)
Definition Package_new (label : value) (σ : state) : value * state :=
  let l := next_loc σ in
  (VInst Package l, bump_loc (put_attr l "label" label σ)).

Definition add_package (self : Model) (label : value) (σ : state)
    : result state :=
  match label with
  | VStr _ =>
      let '(package, σ) := Package_new label σ in
      _setElement self label package σ
  | _ => let! msg := add_str label " must be a string" in Raise (TypeError msg)
  end.

(** One element insertion through the interface of the class, followed
    by the caller reading the identifier of the element it handed over
    (for [add_package], of the Package the call creates). *)
Definition insert (self : Model) (i : insertion) (σ : state)
    : result (value * state) :=
  match i with
  | by_set key element =>
      let! σ := __setitem__ self key element σ in
      let! id := py_getattr σ element "uuid" in
      Ok (id, σ)
  | by_add element =>
      let! σ := add_elements self [element] σ in
      let! id := py_getattr σ element "uuid" in
      Ok (id, σ)
  | by_package label =>
      let package := VInst Package (next_loc σ) in
      let! σ := add_package self label σ in
      let! id := py_getattr σ package "uuid" in
      Ok (id, σ)
  end.

(** A sequence of insertions, each of which has to succeed; the result
    lists the identifiers in the order they were assigned. *)
Fixpoint insert_all (self : Model) (calls : list insertion) (σ : state)
    : result (list value * state) :=
  match calls with
  | [] => Ok ([], σ)
  | i :: calls' =>
      let! r := insert self i σ in
      let! rs := insert_all self calls' r.2 in
      Ok (r.1 :: rs.1, rs.2)
  end.

End Methods.

(** The state an accepted element insertion leads to. *)
Definition inserted (uuid1 : nat → string) (self : Model) (key : value)
    (c : pyclass) (l : loc) (σ : state) : state :=
  put_attr l "uuid" (VStr (uuid1 (uuid_calls σ)))
    (tick_uuid (put_dict (_elements self)
                  (dict_set key (VInst c l) (the_dict σ (_elements self))) σ)).

(** The caller's [del model.elements[key]]. *)
Definition del_element (self : Model) (key : value) (σ : state) : state :=
  put_dict (_elements self) (dict_del key (the_dict σ (_elements self))) σ.

(** One interpreter for the examples: no subclassing among the element
    classes, every string interned, identifiers numbered from zero. *)
Definition sample_repr (v : value) : string := "<" ++ type_name v ++ ">".
Definition sample_uuid1 (n : nat) : string := "uuid-" ++ pretty n.
Definition no_subclass (c cls : pyclass) : bool := false.
Definition interned (v : value) (k : string) : bool := bool_decide (v = VStr k).

Definition is_str (v : value) : bool :=
  match v with VStr _ => true | _ => false end.

(** A relationship record as the callers write it. *)
Definition record (source target kind : string) : dict :=
  [ (VStr "source", VStr source);
    (VStr "target", VStr target);
    (VStr "relationshipType", VStr kind) ].

(** A heap for the examples: two Blocks at 2 and 3 and a Requirement at 4
    in the caller's hands, four relationship records at 5 to 8, at 9 a dict
    that holds the two Blocks under "block-1" and "block-2", and at 10 a
    dict that holds the record at 5 under "partProperty-1". *)
Definition scene : state :=
  State (<[5 := record "block-1" "block-2" "partProperty"]>
         (<[6 := record "block-1" "requirement-1" "partProperty"]>
          (<[7 := record "block-1" "block-9" "partProperty"]>
           (<[8 := record "block-9" "block-1" "partProperty"]>
            (<[9 := [(VStr "block-1", VInst Block 2);
                     (VStr "block-2", VInst Block 3)]]>
             (<[10 := [(VStr "partProperty-1", VDict 5)]]> ∅))))))
        ∅ 11 0.

Section Scenario.

Variable repr : value → string.
Variable uuid1 : nat → string.

(** [m = Model()], then [m["block-1"]], [m["block-2"]] and
    [m["requirement-1"]] are set to the three elements of [scene]. *)
Definition populated : result state :=
  let m := __init__ VNone None None in
  let! σ := __setitem__ repr uuid1 m (VStr "block-1") (VInst Block 2) scene in
  let! σ := __setitem__ repr uuid1 m (VStr "block-2") (VInst Block 3) σ in
  __setitem__ repr uuid1 m (VStr "requirement-1") (VInst Requirement 4) σ.

(** The checks a relationship insertion under [key] goes through before
    the relationship store is touched: the key names a relationship kind,
    both ends are keys of the element store, and the schema rule holds. *)
Definition passes_checks (self : Model) (key relationship : value)
    (σ : state) : bool :=
  let elements := the_dict σ (_elements self) in
  match
    (let! is_key := _isValidRelationshipKey key in
     let! source := subscript σ relationship "source" in
     let! has_source := key_in source elements in
     let! target := subscript σ relationship "target" in
     let! has_target := key_in target elements in
     let! valid := (if has_source && has_target
                    then _isValidRelationship self relationship σ
                    else Ok false) in
     Ok (is_key && has_source && has_target && valid))
  with
  | Ok b => b
  | Raise _ => false
  end.

End Scenario.

(** [m = Model(elements=d)] for the dict [d] at 9 of [scene], followed by
    the caller's [m._relationships = {}]: the new dict is at 11, the next
    free location of [scene], and [wired_scene] is the heap after that. *)
Definition wired : Model :=
  {| _label := VNone; _elements := 9; _relationships := Some 11 |}.
Definition wired_scene : state := bump_loc scene.

(** An interpreter in which no value is the same object as a key of the
    schema tables. *)
Definition never_same (v : value) (k : string) : bool := false.

(** The candidate key number [id_no] of a kind, as [_generateKey] forms it. *)
Definition candidate (kind : string) (id_no : nat) : value :=
  VStr (kind ++ "-" ++ pretty id_no).

Fixpoint all_digits (s : string) : bool :=
  match s with
  | EmptyString => true
  | String c s' => is_digit c && all_digits s'
  end.

(** Every value of the element store of [self] is an instance of a
    registered class. *)
Definition store_valid (self : Model) (σ : state) : Prop :=
  Forall (λ item, _isValidElement item.2 = true) (the_dict σ (_elements self)).

(** ** Facts about dicts and the heap *)

Lemma dict_get_set_eq (k v : value) (d : dict) :
  dict_get k (dict_set k v d) = Some v.
Proof.
  induction d as [|[k' v'] d IH]; simpl.
  - by rewrite bool_decide_eq_true_2.
  - case_bool_decide as E; simpl.
    + by rewrite bool_decide_eq_true_2.
    + by rewrite bool_decide_eq_false_2.
Qed.

Lemma dict_get_set_ne (k k' v : value) (d : dict) :
  k ≠ k' → dict_get k (dict_set k' v d) = dict_get k d.
Proof.
  intros Hne. induction d as [|[k0 v0] d IH]; simpl.
  - by rewrite bool_decide_eq_false_2.
  - case_bool_decide as E; simpl.
    + subst k0. by rewrite !bool_decide_eq_false_2.
    + case_bool_decide; [done | apply IH].
Qed.

Lemma dict_has_set_eq (k v : value) (d : dict) :
  dict_has k (dict_set k v d) = true.
Proof. unfold dict_has. by rewrite dict_get_set_eq. Qed.

Lemma the_dict_put_eq (l : loc) (d : dict) (σ : state) :
  the_dict (put_dict l d σ) l = d.
Proof. unfold the_dict, put_dict; simpl. by rewrite lookup_insert_eq. Qed.

Lemma the_dict_put_ne (l l' : loc) (d : dict) (σ : state) :
  l ≠ l' → the_dict (put_dict l' d σ) l = the_dict σ l.
Proof. intros Hne. unfold the_dict, put_dict; simpl. by rewrite lookup_insert_ne. Qed.

Lemma get_attr_put_eq (l : loc) (name : string) (v : value) (σ : state) :
  get_attr (put_attr l name v σ) l name = Some v.
Proof. unfold get_attr, put_attr; simpl. by rewrite lookup_insert_eq. Qed.

Lemma get_attr_put_ne (l l' : loc) (name name' : string) (v : value) (σ : state) :
  (l, name) ≠ (l', name') →
  get_attr (put_attr l' name' v σ) l name = get_attr σ l name.
Proof. intros Hne. unfold get_attr, put_attr; simpl. by rewrite lookup_insert_ne. Qed.

Lemma the_dict_inserted uuid1 self key c l σ :
  the_dict (inserted uuid1 self key c l σ) (_elements self)
  = dict_set key (VInst c l) (the_dict σ (_elements self)).
Proof. unfold inserted, the_dict; simpl. by rewrite lookup_insert_eq. Qed.

Lemma uuid_calls_inserted uuid1 self key c l σ :
  uuid_calls (inserted uuid1 self key c l σ) = S (uuid_calls σ).
Proof. reflexivity. Qed.

Lemma get_attr_inserted uuid1 self key c l σ :
  get_attr (inserted uuid1 self key c l σ) l "uuid"
  = Some (VStr (uuid1 (uuid_calls σ))).
Proof. unfold inserted. apply get_attr_put_eq. Qed.

Section Facts.

Variable repr : value → string.
Variable uuid1 : nat → string.
Variable subclass : pyclass → pyclass → bool.
Variable str_is : value → string → bool.

(** [_setElement] accepts an instance of a registered class under any
    hashable key other than [None]. *)
Lemma _setElement_ok self key c l σ :
  key ≠ VNone → hashable key = true → _isValidElement (VInst c l) = true →
  _setElement repr uuid1 self key (VInst c l) σ
  = Ok (inserted uuid1 self key c l σ).
Proof.
  intros Hnone Hhash Hvalid. unfold _setElement.
  assert ((match key with
           | VNone => Raise (TypeError "_generateKey() missing 1 required positional argument: 'maxId_no'")
           | _ => Ok key
           end) = Ok key) as -> by (by destruct key).
  simpl. rewrite Hvalid; simpl.
  unfold dict_store. rewrite Hhash; simpl.
  unfold dict_item. rewrite Hhash.
  replace (the_dict (tick_uuid (put_dict (_elements self)
             (dict_set key (VInst c l) (the_dict σ (_elements self))) σ))
             (_elements self))
    with (dict_set key (VInst c l) (the_dict σ (_elements self)))
    by (symmetry; apply the_dict_put_eq).
  by rewrite dict_get_set_eq.
Qed.

(** A value that is not an instance of a registered class is refused. *)
Lemma _setElement_invalid self key element σ :
  key ≠ VNone → _isValidElement element = false →
  _setElement repr uuid1 self key element σ
  = Raise (TypeError (repr element ++ " is not a valid model element.")).
Proof.
  intros Hnone Hvalid. unfold _setElement.
  destruct key; try done; simpl; by rewrite Hvalid.
Qed.

(** The key generated for a Block when the keys "block-1" .. "block-n"
    are not all taken. *)
Lemma element_key_block l d n :
  element_key subclass _validElements (VInst Block l) d n
  = match probe "block" d (seq 1 n) with
    | Some newKey => newKey
    | None => element_key subclass (tail _validElements) (VInst Block l) d n
    end.
Proof. reflexivity. Qed.

(** One step of [add_elements] on a Block. *)
Lemma add_elements_block self l rest σ key :
  element_key subclass _validElements (VInst Block l)
    (the_dict σ (_elements self)) (length (the_dict σ (_elements self)) + 1)
  = VStr key →
  add_elements repr uuid1 subclass str_is self (VInst Block l :: rest) σ
  = add_elements repr uuid1 subclass str_is self rest
      (inserted uuid1 self (VStr key) Block l σ).
Proof.
  intros Hkey. cbn [add_elements]. unfold _generateKey.
  change (_isValidElement (VInst Block l)) with true. cbv iota.
  rewrite Hkey. unfold bind at 1.
  by rewrite _setElement_ok.
Qed.

(** C3. On a model whose element store is empty, [add_elements(b1, b2)]
    with two Blocks stores them under "block-1" and "block-2", in that
    order; once "block-1" has been deleted from the store,
    [add_elements(b3)] stores the Block b3 under "block-1", the lowest
    free sequence number, and not under "block-3". *)
Theorem add_elements_lowest_free self σ l1 l2 l3 :
  the_dict σ (_elements self) = [] →
  ∃ σ2 σ3,
    add_elements repr uuid1 subclass str_is self
      [VInst Block l1; VInst Block l2] σ = Ok σ2
    ∧ the_dict σ2 (_elements self)
      = [(VStr "block-1", VInst Block l1); (VStr "block-2", VInst Block l2)]
    ∧ _generateKey subclass str_is self (VInst Block l3) 2
        (del_element self (VStr "block-1") σ2) = Ok (VStr "block-1")
    ∧ add_elements repr uuid1 subclass str_is self [VInst Block l3]
        (del_element self (VStr "block-1") σ2) = Ok σ3
    ∧ the_dict σ3 (_elements self)
      = [(VStr "block-2", VInst Block l2); (VStr "block-1", VInst Block l3)].
Proof.
  intros Hempty.
  set (σ1 := inserted uuid1 self (VStr "block-1") Block l1 σ).
  set (σ2 := inserted uuid1 self (VStr "block-2") Block l2 σ1).
  assert (the_dict σ1 (_elements self) = [(VStr "block-1", VInst Block l1)]) as H1.
  { unfold σ1. rewrite the_dict_inserted, Hempty. reflexivity. }
  assert (the_dict σ2 (_elements self)
          = [(VStr "block-1", VInst Block l1); (VStr "block-2", VInst Block l2)]) as H2.
  { unfold σ2. rewrite the_dict_inserted, H1. reflexivity. }
  set (σd := del_element self (VStr "block-1") σ2).
  assert (the_dict σd (_elements self) = [(VStr "block-2", VInst Block l2)]) as Hd.
  { unfold σd, del_element. rewrite the_dict_put_eq, H2. reflexivity. }
  exists σ2, (inserted uuid1 self (VStr "block-1") Block l3 σd).
  repeat split.
  - rewrite (add_elements_block self l1 _ σ "block-1")
      by (rewrite Hempty; reflexivity).
    fold σ1.
    rewrite (add_elements_block self l2 _ σ1 "block-2")
      by (rewrite H1; reflexivity).
    reflexivity.
  - exact H2.
  - unfold _generateKey. change (_isValidElement (VInst Block l3)) with true.
    cbv iota. fold σd. rewrite Hd. reflexivity.
  - fold σd.
    rewrite (add_elements_block self l3 _ σd "block-1")
      by (rewrite Hd; reflexivity).
    reflexivity.
  - rewrite the_dict_inserted, Hd. reflexivity.
Qed.

Lemma dict_set_length (k v : value) (d : dict) :
  dict_has k d = true → length (dict_set k v d) = length d.
Proof.
  unfold dict_has. induction d as [|[k' v'] d IH]; simpl; [done|].
  case_bool_decide; simpl; [done|]. intros Hd. by rewrite IH.
Qed.

(** Reading back, through [model[key]], a key of the element store. *)
Lemma __getitem___element self key v σ :
  hashable key = true →
  dict_get key (the_dict σ (_elements self)) = Some v →
  __getitem__ repr self key σ = Ok v.
Proof.
  intros Hhash Hget. unfold __getitem__, key_in, dict_item, dict_has.
  rewrite Hhash, Hget. reflexivity.
Qed.

(** [model[key] = element] for a key of an element kind goes to
    [_setElement]. *)
Lemma __setitem___element self key element σ :
  _isValidElementKey key = Ok true →
  __setitem__ repr uuid1 self key element σ
  = _setElement repr uuid1 self key element σ.
Proof. intros H. unfold __setitem__. by rewrite H. Qed.

(** C7. [model["block-1"] = b1] followed by [model["block-1"] = b2], for
    two Blocks, leaves b2 under "block-1": the entry is replaced, the
    store does not grow, and the identifier b2 receives differs from the
    one b1 received (the generator gives fresh identifiers). *)
Theorem set_overwrites self σ l1 l2 :
  (∀ m n, uuid1 m = uuid1 n → m = n) →
  ∃ σ1 σ2 id1 id2,
    __setitem__ repr uuid1 self (VStr "block-1") (VInst Block l1) σ = Ok σ1
    ∧ get_attr σ1 l1 "uuid" = Some (VStr id1)
    ∧ __setitem__ repr uuid1 self (VStr "block-1") (VInst Block l2) σ1 = Ok σ2
    ∧ __getitem__ repr self (VStr "block-1") σ2 = Ok (VInst Block l2)
    ∧ the_dict σ2 (_elements self)
      = dict_set (VStr "block-1") (VInst Block l2) (the_dict σ1 (_elements self))
    ∧ length (the_dict σ2 (_elements self)) = length (the_dict σ1 (_elements self))
    ∧ get_attr σ2 l2 "uuid" = Some (VStr id2)
    ∧ id1 ≠ id2.
Proof.
  intros Hfresh.
  set (σ1 := inserted uuid1 self (VStr "block-1") Block l1 σ).
  set (σ2 := inserted uuid1 self (VStr "block-1") Block l2 σ1).
  exists σ1, σ2, (uuid1 (uuid_calls σ)), (uuid1 (uuid_calls σ1)).
  assert (the_dict σ2 (_elements self)
          = dict_set (VStr "block-1") (VInst Block l2) (the_dict σ1 (_elements self)))
    as Hstore by apply the_dict_inserted.
  repeat split.
  - rewrite __setitem___element by reflexivity. by apply _setElement_ok.
  - apply get_attr_inserted.
  - rewrite __setitem___element by reflexivity. by apply _setElement_ok.
  - apply __getitem___element; [done|]. rewrite Hstore. apply dict_get_set_eq.
  - exact Hstore.
  - rewrite Hstore. apply dict_set_length.
    unfold σ1. rewrite the_dict_inserted. apply dict_has_set_eq.
  - apply get_attr_inserted.
  - intros Heq. apply Hfresh in Heq. unfold σ1 in Heq.
    rewrite uuid_calls_inserted in Heq. lia.
Qed.

(** C8. [add_package(label)] raises a TypeError when the label is not a
    string; for a string [s] it inserts, through [_setElement], a new
    Package under the key [s] itself, so that [model[s]] is then a
    Package that carries the label [s] and an identifier. *)
Theorem add_package_spec self σ label s :
  is_str label = false →
  is_TypeError (add_package repr uuid1 self label σ) = true
  ∧ ∃ σ' l id,
      add_package repr uuid1 self (VStr s) σ = Ok σ'
      ∧ add_package repr uuid1 self (VStr s) σ
        = _setElement repr uuid1 self (VStr s) (VInst Package l)
            (Package_new (VStr s) σ).2
      ∧ dict_get (VStr s) (the_dict σ' (_elements self)) = Some (VInst Package l)
      ∧ __getitem__ repr self (VStr s) σ' = Ok (VInst Package l)
      ∧ get_attr σ' l "label" = Some (VStr s)
      ∧ get_attr σ' l "uuid" = Some (VStr id).
Proof.
  intros Hlabel. split.
  - by destruct label.
  - set (l := next_loc σ).
    set (σp := bump_loc (put_attr l "label" (VStr s) σ)).
    exists (inserted uuid1 self (VStr s) Package l σp), l, (uuid1 (uuid_calls σp)).
    assert (dict_get (VStr s)
              (the_dict (inserted uuid1 self (VStr s) Package l σp) (_elements self))
            = Some (VInst Package l)) as Hget
      by (rewrite the_dict_inserted; apply dict_get_set_eq).
    repeat split.
    + unfold add_package, Package_new. fold l σp. by apply _setElement_ok.
    + exact Hget.
    + by apply __getitem___element.
    + unfold inserted. rewrite get_attr_put_ne by (intros [= _ ?]; done).
      apply get_attr_put_eq.
    + apply get_attr_inserted.
Qed.

(** C6. [model["bogus!!"] = value] is refused, for every model and
    value, by the unpacking of [key.split('-')] inside
    [_isValidElementKey]: the exception is the interpreter's ValueError
    about the number of values, and not the one [__setitem__] builds
    from [repr(key)]. *)
Theorem bogus_key_unpack_error self element σ :
  __setitem__ repr uuid1 self (VStr "bogus!!") element σ
  = Raise (ValueError "not enough values to unpack (expected 2, got 1)").
Proof. reflexivity. Qed.

(** X18. The case [__setitem__] handles itself: for a key of exactly two
    dash-separated parts whose first part names no kind, the ValueError
    carries [repr(key)] followed by the fixed explanation. *)
Lemma unknown_kind_error self s name id_no element σ :
  split "-"%char s = [name; id_no] →
  name ∉ _validElements.*1 → name ∉ _validRelationships.*1 →
  __setitem__ repr uuid1 self (VStr s) element σ
  = Raise (ValueError (repr (VStr s) ++ invalid_key)).
Proof.
  intros Hsplit He Hr.
  unfold __setitem__, _isValidElementKey, _isValidRelationshipKey, py_split.
  rewrite Hsplit. cbn [bind unpack2].
  rewrite !bool_decide_eq_false_2 by done. reflexivity.
Qed.

(** X17. Every string key that neither validator accepts makes
    [model[key] = value] raise a ValueError, whichever statement raises it
    (the unpacking of the split, [int], or [__setitem__] itself). *)
Lemma invalid_key_ValueError self s element σ :
  _isValidElementKey (VStr s) ≠ Ok true →
  _isValidRelationshipKey (VStr s) ≠ Ok true →
  is_ValueError (__setitem__ repr uuid1 self (VStr s) element σ) = true.
Proof.
  unfold __setitem__, _isValidElementKey, _isValidRelationshipKey, py_split.
  cbn [bind].
  destruct (split "-"%char s) as [|a [|b [|c rest]]]; try reflexivity.
  cbn [bind unpack2]. unfold py_int.
  case_bool_decide; [destruct (parse_int b); cbn; done|].
  cbn [bind].
  case_bool_decide; [destruct (parse_int b); cbn; done|].
  reflexivity.
Qed.

(** The kinds of elements and of relationships are disjoint: a key of
    a relationship kind is not a key of an element kind. *)
Lemma relationship_key_not_element key :
  _isValidRelationshipKey key = Ok true → _isValidElementKey key = Ok false.
Proof.
  unfold _isValidRelationshipKey, _isValidElementKey.
  destruct (py_split key) as [parts|]; cbn [bind]; [|done].
  destruct (unpack2 parts) as [[name id_no]|]; cbn [bind]; [|done].
  case_bool_decide as Hr; [|done]. intros _.
  rewrite bool_decide_eq_false_2; [done|].
  assert (Forall (λ n, n ∉ _validElements.*1) (_validRelationships.*1)) as HF
    by (apply (bool_decide_eq_true_1 _); vm_compute; reflexivity).
  rewrite Forall_forall in HF. by apply HF.
Qed.

(** A relationship that passes every check reaches the assignment to
    [self._relationships[key]], which fails when the attribute is unset. *)
Lemma _setRelationship_unset self key relationship σ :
  _relationships self = None →
  passes_checks self key relationship σ = true →
  _isValidRelationshipKey key = Ok true
  ∧ _setRelationship self key relationship σ = Raise no_relationships.
Proof.
  intros Hnone. unfold passes_checks, _setRelationship.
  destruct (_isValidRelationshipKey key) as [is_key|]; cbn [bind]; [|done].
  destruct (subscript σ relationship "source") as [source|]; cbn [bind]; [|done].
  destruct (key_in source _) as [has_source|]; cbn [bind]; [|done].
  destruct (subscript σ relationship "target") as [target|]; cbn [bind]; [|done].
  destruct (key_in target _) as [has_target|]; cbn [bind]; [|done].
  destruct is_key, has_source, has_target; cbn [andb negb bind];
    try (destruct (_isValidRelationship self relationship σ) as [[]|]; done).
  destruct (_isValidRelationship self relationship σ) as [[]|];
    cbn [andb negb bind]; try done.
  intros _. split; [done|].
  unfold relationships_attr. by rewrite Hnone.
Qed.

(** C5, as amended. A model as the constructor leaves it has no
    attribute [_relationships]. On it, whatever the element store holds,
    reading [model.relationships], reading [model[k]] for a key [k] that
    is not in the element store, and [add_relationships] with at least one
    argument raise AttributeError. So do [model[key] = r], and the bulk
    setter of [relationships] on a dict whose first entry is [key: r],
    when the relationship passes the checks that precede the store (a key
    of a relationship kind, both ends in the element store, the schema
    rule). A record under a relationship key whose source is in the
    element store and whose target is a string that is not is refused
    before that, with the TypeError of the target check. *)
Theorem unset_relationship_store label els rels σ :
  let self := __init__ label els rels in
  let store := the_dict σ (_elements self) in
  relationships self = Raise no_relationships
  ∧ (∀ k, key_in k store = Ok false →
          __getitem__ repr self k σ = Raise no_relationships)
  ∧ (∀ r0 rs, add_relationships subclass str_is self (r0 :: rs) σ
              = Raise no_relationships)
  ∧ (∀ key r, passes_checks self key r σ = true →
              __setitem__ repr uuid1 self key r σ = Raise no_relationships)
  ∧ (∀ l key r rest,
       the_dict σ l = (key, r) :: rest →
       passes_checks self key r σ = true →
       relationships_setter repr self (VDict l) σ = Raise no_relationships)
  ∧ (∀ key r source target,
       _isValidRelationshipKey key = Ok true →
       subscript σ r "source" = Ok source →
       key_in source store = Ok true →
       subscript σ r "target" = Ok (VStr target) →
       key_in (VStr target) store = Ok false →
       __setitem__ repr uuid1 self key r σ
       = Raise (TypeError (target ++ " does not exist in model."))).
Proof.
  intros self store. split; [reflexivity|]. split; [|split; [|split; [|split]]].
  - intros k Hk. unfold __getitem__. fold store. by rewrite Hk.
  - reflexivity.
  - intros key r Hchecks.
    destruct (_setRelationship_unset self key r σ eq_refl Hchecks) as [Hkey Hset].
    unfold __setitem__.
    rewrite (relationship_key_not_element key Hkey). cbn [bind].
    rewrite Hkey. cbn [bind]. exact Hset.
  - intros l key r rest Hl Hchecks.
    destruct (_setRelationship_unset self key r σ eq_refl Hchecks) as [Hkey Hset].
    unfold relationships_setter. rewrite Hl. cbn [dict_keys fmap list_fmap fst].
    cbn [set_relationships].
    pose proof Hkey as Hkey'. unfold _isValidRelationshipKey in Hkey'.
    destruct (py_split key) as [parts|]; cbn [bind] in *; [|done].
    destruct (unpack2 parts) as [pair|]; cbn [bind] in *; [|done].
    rewrite Hkey. cbn [bind negb]. rewrite Hl.
    assert (dict_item ((key, r) :: rest) key = Ok r) as ->.
    { unfold dict_item. destruct key; try done; cbn;
        by rewrite bool_decide_eq_true_2. }
    cbn [bind]. rewrite Hset. reflexivity.
  - intros key r source target Hkey Hs Hsin Ht Htin.
    unfold __setitem__.
    rewrite (relationship_key_not_element key Hkey). cbn [bind].
    rewrite Hkey. cbn [bind]. unfold _setRelationship. fold store.
    rewrite Hs; cbn [bind]. rewrite Hsin; cbn [bind negb].
    rewrite Ht; cbn [bind]. by rewrite Htin.
Qed.

(** What a successful [_setElement] has done. *)
Lemma _setElement_inv self key element σ σ' :
  _setElement repr uuid1 self key element σ = Ok σ' →
  ∃ c l, element = VInst c l ∧ σ' = inserted uuid1 self key c l σ.
Proof.
  intros Hrun.
  destruct (decide (key = VNone)) as [->|Hnone]; [done|].
  destruct (_isValidElement element) eqn:Hvalid.
  - destruct element as [| | |c l|]; try done.
    destruct (hashable key) eqn:Hhash.
    + exists c, l. split; [done|].
      rewrite _setElement_ok in Hrun by done. by injection Hrun.
    + unfold _setElement in Hrun. rewrite Hvalid in Hrun. destruct key; done.
  - by rewrite _setElement_invalid in Hrun.
Qed.

(** Only a dict gets through [_setRelationship]. *)
Lemma _setRelationship_inv self key relationship σ σ' :
  _setRelationship self key relationship σ = Ok σ' →
  ∃ l, relationship = VDict l.
Proof.
  unfold _setRelationship. destruct relationship; try done. eauto.
Qed.

(** A successful insertion draws exactly one identifier, the next one
    of the generator, and it is the one the element carries. *)
Lemma insert_inv self i σ id σ' :
  insert repr uuid1 subclass str_is self i σ = Ok (id, σ') →
  id = VStr (uuid1 (uuid_calls σ)) ∧ uuid_calls σ' = S (uuid_calls σ).
Proof.
  destruct i as [key element|element|label]; cbn [insert].
  - unfold __setitem__.
    destruct (_isValidElementKey key) as [[|]|]; cbn [bind]; [| |done].
    + destruct (_setElement repr uuid1 self key element σ) as [σ1|] eqn:Hset;
        cbn [bind]; [|done].
      apply _setElement_inv in Hset as (c & l & -> & ->).
      unfold py_getattr. rewrite get_attr_inserted. cbn [bind].
      intros [= <- <-]. done.
    + destruct (_isValidRelationshipKey key) as [[|]|]; cbn [bind]; [|done|done].
      destruct (_setRelationship self key element σ) as [σ1|] eqn:Hset;
        cbn [bind]; [|done].
      apply _setRelationship_inv in Hset as [l ->]. done.
  - cbn [add_elements].
    destruct (_generateKey subclass str_is self element _ σ) as [key|];
      cbn [bind]; [|done].
    destruct (_setElement repr uuid1 self key element σ) as [σ1|] eqn:Hset;
      cbn [bind]; [|done].
    apply _setElement_inv in Hset as (c & l & -> & ->).
    unfold py_getattr. rewrite get_attr_inserted. cbn [bind].
    intros [= <- <-]. done.
  - unfold add_package.
    destruct label as [| |s| |]; cbn [add_str bind]; try done.
    unfold Package_new.
    rewrite _setElement_ok by done. cbn [bind].
    unfold py_getattr. rewrite get_attr_inserted. cbn [bind].
    intros [= <- <-]. done.
Qed.

(** The identifiers of a run are consecutive draws of the generator. *)
Lemma insert_all_ids self calls σ ids σ' :
  insert_all repr uuid1 subclass str_is self calls σ = Ok (ids, σ') →
  ids = (λ n, VStr (uuid1 n)) <$> seq (uuid_calls σ) (length calls).
Proof.
  revert σ ids σ'. induction calls as [|i calls IH]; intros σ ids σ'.
  - cbn. by intros [= <- <-].
  - cbn [insert_all].
    destruct (insert repr uuid1 subclass str_is self i σ) as [[id σ1]|] eqn:Hi;
      cbn [bind fst snd]; [|done].
    destruct (insert_all repr uuid1 subclass str_is self calls σ1)
      as [[ids1 σ2]|] eqn:Hrest; cbn [bind fst snd]; [|done].
    intros [= <- <-].
    apply insert_inv in Hi as [-> Hcalls].
    apply IH in Hrest as ->. cbn. by rewrite Hcalls.
Qed.

(** C9. When the generator never repeats an identifier, the identifiers
    assigned by any sequence of N successful element insertions into a
    model (by [model[key] = e], [add_elements(e)] or [add_package(label)])
    are N pairwise distinct strings. *)
Theorem assigned_ids_distinct self calls σ ids σ' :
  (∀ m n, uuid1 m = uuid1 n → m = n) →
  insert_all repr uuid1 subclass str_is self calls σ = Ok (ids, σ') →
  length ids = length calls
  ∧ NoDup ids
  ∧ Forall (λ id, is_str id = true) ids.
Proof.
  intros Hfresh Hrun. apply insert_all_ids in Hrun as ->.
  split; [by rewrite length_fmap, length_seq|]. split.
  - apply NoDup_fmap_2; [|apply NoDup_seq].
    intros m n [= Heq]. by apply Hfresh.
  - apply Forall_fmap, Forall_forall. done.
Qed.

(** *** Relationship insertion, path by path *)

(** An absent source: the message of the intended error names
    [relationships], which is not bound. *)
Lemma absent_source_error self key relationship σ source :
  subscript σ relationship "source" = Ok source →
  key_in source (the_dict σ (_elements self)) = Ok false →
  _setRelationship self key relationship σ = Raise (not_defined "relationships").
Proof.
  intros Hs Hin. unfold _setRelationship.
  rewrite Hs; cbn [bind]. by rewrite Hin.
Qed.

(** X16. A record whose source is a key of the element store and whose
    target is a string that is not: [_setRelationship] raises the TypeError
    "<target> does not exist in model.", whatever the key and the kind. *)
Lemma absent_target_error self key relationship σ source target :
  subscript σ relationship "source" = Ok source →
  key_in source (the_dict σ (_elements self)) = Ok true →
  subscript σ relationship "target" = Ok (VStr target) →
  key_in (VStr target) (the_dict σ (_elements self)) = Ok false →
  _setRelationship self key relationship σ
  = Raise (TypeError (target ++ " does not exist in model.")).
Proof.
  intros Hs Hsin Ht Htin. unfold _setRelationship.
  rewrite Hs; cbn [bind]. rewrite Hsin; cbn [bind negb].
  rewrite Ht; cbn [bind]. by rewrite Htin.
Qed.

(** Ends that the schema rule refuses: [NameError] again. *)
Lemma schema_violation_error self key relationship σ source target :
  subscript σ relationship "source" = Ok (VStr source) →
  key_in (VStr source) (the_dict σ (_elements self)) = Ok true →
  subscript σ relationship "target" = Ok target →
  key_in target (the_dict σ (_elements self)) = Ok true →
  _isValidRelationship self relationship σ = Ok false →
  _setRelationship self key relationship σ = Raise (not_defined "relationships").
Proof.
  intros Hs Hsin Ht Htin Hvalid. unfold _setRelationship.
  rewrite Hs; cbn [bind]. rewrite Hsin; cbn [bind negb].
  rewrite Ht; cbn [bind]. rewrite Htin; cbn [bind negb].
  by rewrite Hvalid.
Qed.

(** On an instance that was given the attribute [_relationships] from
    outside the class, a relationship that passes the checks is stored. *)
Lemma _setRelationship_stores self key relationship σ l :
  _relationships self = Some l → hashable key = true →
  passes_checks self key relationship σ = true →
  ∃ σ', _setRelationship self key relationship σ = Ok σ'
        ∧ dict_get key (the_dict σ' l) = Some relationship.
Proof.
  intros Hl Hhash. unfold passes_checks, _setRelationship.
  destruct (_isValidRelationshipKey key) as [is_key|]; cbn [bind]; [|done].
  destruct (subscript σ relationship "source") as [source|]; cbn [bind]; [|done].
  destruct (key_in source _) as [has_source|]; cbn [bind]; [|done].
  destruct (subscript σ relationship "target") as [target|]; cbn [bind]; [|done].
  destruct (key_in target _) as [has_target|]; cbn [bind]; [|done].
  destruct is_key, has_source, has_target; cbn [andb negb bind];
    try (destruct (_isValidRelationship self relationship σ) as [[]|]; done).
  destruct (_isValidRelationship self relationship σ) as [[]|];
    cbn [andb negb bind]; try done.
  intros _. unfold relationships_attr, dict_store. rewrite Hl, Hhash. cbn [bind].
  eexists; split; [done|]. rewrite the_dict_put_eq. apply dict_get_set_eq.
Qed.

(** *** The bulk setters *)

Lemma elements_setter_not_dict self v σ :
  (∀ l, v ≠ VDict l) →
  elements_setter repr self v σ
  = Raise (TypeError (repr v ++ " must be a dictionary.")).
Proof. intros Hv. destruct v; try done. by destruct (Hv l). Qed.

Lemma relationships_setter_not_dict self v σ :
  (∀ l, v ≠ VDict l) →
  relationships_setter repr self v σ
  = Raise (TypeError (repr v ++ " must be a dictionary.")).
Proof. intros Hv. destruct v; try done. by destruct (Hv l). Qed.

(** The setter of [elements] inserts nothing: on a dict with at least
    one entry it raises, on an empty dict it has nothing to do. *)
Lemma elements_setter_dict self l σ :
  elements_setter repr self (VDict l) σ
  = match the_dict σ l with
    | [] => Ok σ
    | _ :: _ => Raise (no_attribute "Model" "_setElements")
    end.
Proof. unfold elements_setter, dict_keys. by destruct (the_dict σ l). Qed.

(** *** Two instances *)

(** Instances built without [elements] hold the same dict. *)
Lemma default_store_aliased label1 label2 rels1 rels2 :
  _elements (__init__ label1 None rels1) = _elements (__init__ label2 None rels2).
Proof. reflexivity. Qed.

(** Instances built over two different dicts do not interfere. *)
Lemma explicit_stores_confined label1 label2 e1 e2 rels1 rels2 key element σ σ' :
  e1 ≠ e2 →
  _setElement repr uuid1 (__init__ label1 (Some e1) rels1) key element σ = Ok σ' →
  the_dict σ' (_elements (__init__ label2 (Some e2) rels2)) = the_dict σ e2.
Proof.
  intros Hne Hset. apply _setElement_inv in Hset as (c & l & -> & ->).
  unfold inserted, the_dict; cbn. by rewrite lookup_insert_ne.
Qed.

(** *** The code on the inputs where it departs from its documentation *)

(** C1. On [m = Model()] holding two Blocks under "block-1" and
    "block-2" and a Requirement under "requirement-1", setting
    [m["partProperty-1"]] to a partProperty record from "block-1" to
    "block-2" does not store it: the assignment to
    [self._relationships[key]] raises AttributeError, the constructor
    having never set the attribute. With the Requirement as target the
    insertion is refused, but by a NameError raised while the message of
    the intended error is built. *)
Theorem partProperty_insertion_fails :
  let m := __init__ VNone None None in
  ∃ σ, populated repr uuid1 = Ok σ
    ∧ the_dict σ (_elements m)
      = [ (VStr "block-1", VInst Block 2); (VStr "block-2", VInst Block 3);
          (VStr "requirement-1", VInst Requirement 4) ]
    ∧ the_dict σ 5 = record "block-1" "block-2" "partProperty"
    ∧ the_dict σ 6 = record "block-1" "requirement-1" "partProperty"
    ∧ __setitem__ repr uuid1 m (VStr "partProperty-1") (VDict 5) σ
      = Raise no_relationships
    ∧ __setitem__ repr uuid1 m (VStr "partProperty-1") (VDict 6) σ
      = Raise (not_defined "relationships").
Proof.
  intros m. eexists. split; [reflexivity|]. repeat split.
Qed.

(** C2. On [m = Model()] with an empty element store, setting
    [m["partProperty-1"]] to a record whose source "block-1" is absent
    raises NameError, the same exception a schema violation ends in,
    where a record whose only absent end is its target raises the
    TypeError "... does not exist in model.". *)
Theorem absent_source_NameError :
  let m := __init__ VNone None None in
  let m9 := __init__ VNone (Some 9) None in
  the_dict scene (_elements m) = []
  ∧ __setitem__ repr uuid1 m (VStr "partProperty-1") (VDict 5) scene
    = Raise (not_defined "relationships")
  ∧ __setitem__ repr uuid1 m9 (VStr "partProperty-1") (VDict 8) scene
    = Raise (not_defined "relationships")
  ∧ __setitem__ repr uuid1 m9 (VStr "partProperty-1") (VDict 7) scene
    = Raise (TypeError "block-9 does not exist in model.").
Proof. repeat split. Qed.

(** C4. Assigning the dict at 9, which holds a Block under "block-1",
    to [m.elements] raises AttributeError (the class has no method
    [_setElements]) and inserts nothing, where [m["block-1"] = b] for the
    same Block inserts it. *)
Theorem elements_setter_fails :
  let m := __init__ VNone None None in
  dict_get (VStr "block-1") (the_dict scene 9) = Some (VInst Block 2)
  ∧ elements_setter repr m (VDict 9) scene
    = Raise (no_attribute "Model" "_setElements")
  ∧ ∃ σ', __setitem__ repr uuid1 m (VStr "block-1") (VInst Block 2) scene = Ok σ'
        ∧ the_dict σ' (_elements m) = [(VStr "block-1", VInst Block 2)].
Proof.
  intros m. repeat split. eexists. split; reflexivity.
Qed.

(** C10. Two instances built without the argument [elements] share the
    dict that is its default value: an element set in the first one is
    in the element store of the second. *)
Theorem default_store_shared label1 label2 rels1 rels2 :
  let m1 := __init__ label1 None rels1 in
  let m2 := __init__ label2 None rels2 in
  the_dict scene (_elements m2) = []
  ∧ ∃ σ', __setitem__ repr uuid1 m1 (VStr "block-1") (VInst Block 2) scene = Ok σ'
        ∧ the_dict σ' (_elements m2) = [(VStr "block-1", VInst Block 2)].
Proof.
  intros m1 m2. split; [reflexivity|]. eexists. split; reflexivity.
Qed.

End Facts.

(** ** Examples *)

Lemma sample_uuid1_fresh (m n : nat) : sample_uuid1 m = sample_uuid1 n → m = n.
Proof.
  unfold sample_uuid1. intros H. simplify_eq/=. by apply (inj pretty).
Qed.

(** C5, as stated, fails: right after [m = Model(elements=d)], with two
    Blocks in [d], setting [m["partProperty-1"]] to a record whose target
    "block-9" is absent raises the TypeError of the target check, not an
    AttributeError. *)
Lemma absent_target_not_AttributeError :
  let m := __init__ VNone (Some 9) None in
  let outcome :=
    __setitem__ sample_repr sample_uuid1 m (VStr "partProperty-1") (VDict 7) scene in
  _relationships m = None
  ∧ outcome = Raise (TypeError "block-9 does not exist in model.")
  ∧ is_AttributeError outcome = false.
Proof. repeat split. Qed.

Lemma add_elements_lowest_free_witness :
  let m := __init__ VNone None None in
  the_dict scene (_elements m) = []
  ∧ ∃ σ2 σ3,
      add_elements sample_repr sample_uuid1 no_subclass interned m
        [VInst Block 2; VInst Block 3] scene = Ok σ2
      ∧ the_dict σ2 (_elements m)
        = [(VStr "block-1", VInst Block 2); (VStr "block-2", VInst Block 3)]
      ∧ _generateKey no_subclass interned m (VInst Block 4) 2
          (del_element m (VStr "block-1") σ2) = Ok (VStr "block-1")
      ∧ add_elements sample_repr sample_uuid1 no_subclass interned m [VInst Block 4]
          (del_element m (VStr "block-1") σ2) = Ok σ3
      ∧ the_dict σ3 (_elements m)
        = [(VStr "block-2", VInst Block 3); (VStr "block-1", VInst Block 4)].
Proof.
  intros m. split; [reflexivity|].
  apply (add_elements_lowest_free sample_repr sample_uuid1 no_subclass interned
           m scene 2 3 4).
  reflexivity.
Defined.

Lemma unset_relationship_store_witness :
  let m := __init__ VNone (Some 9) None in
  let m0 := __init__ VNone None None in
  let store := the_dict scene (_elements m) in
  key_in (VStr "block-7") store = Ok false
  ∧ passes_checks m (VStr "partProperty-1") (VDict 5) scene = true
  ∧ the_dict scene 10 = (VStr "partProperty-1", VDict 5) :: []
  ∧ _isValidRelationshipKey (VStr "partProperty-1") = Ok true
  ∧ subscript scene (VDict 7) "source" = Ok (VStr "block-1")
  ∧ key_in (VStr "block-1") store = Ok true
  ∧ subscript scene (VDict 7) "target" = Ok (VStr "block-9")
  ∧ key_in (VStr "block-9") store = Ok false
  ∧ relationships m = Raise no_relationships
  ∧ __getitem__ sample_repr m (VStr "block-7") scene = Raise no_relationships
  ∧ add_relationships no_subclass interned m [VDict 5] scene = Raise no_relationships
  ∧ __setitem__ sample_repr sample_uuid1 m (VStr "partProperty-1") (VDict 5) scene
    = Raise no_relationships
  ∧ relationships_setter sample_repr m (VDict 10) scene = Raise no_relationships
  ∧ __setitem__ sample_repr sample_uuid1 m (VStr "partProperty-1") (VDict 7) scene
    = Raise (TypeError ("block-9" ++ " does not exist in model."))
  ∧ the_dict scene (_elements m0) = []
  ∧ relationships m0 = Raise no_relationships
  ∧ __getitem__ sample_repr m0 (VStr "block-1") scene = Raise no_relationships
  ∧ add_relationships no_subclass interned m0 [VDict 5] scene = Raise no_relationships.
Proof.
  intros m m0 store.
  destruct (unset_relationship_store sample_repr sample_uuid1 no_subclass interned
              VNone (Some 9) None scene) as (H1 & H2 & H3 & H4 & H5 & H6).
  destruct (unset_relationship_store sample_repr sample_uuid1 no_subclass interned
              VNone None None scene) as (G1 & G2 & G3 & _).
  do 8 (split; [reflexivity|]).
  split; [exact H1|].
  split; [apply H2; reflexivity|].
  split; [apply H3|].
  split; [apply H4; reflexivity|].
  split; [apply (H5 10 (VStr "partProperty-1") (VDict 5) []); reflexivity|].
  split; [apply (H6 _ _ (VStr "block-1")); reflexivity|].
  split; [reflexivity|].
  split; [exact G1|].
  split; [apply G2; reflexivity|].
  apply G3.
Defined.

Lemma set_overwrites_witness :
  let m := __init__ VNone None None in
  (∀ m n, sample_uuid1 m = sample_uuid1 n → m = n)
  ∧ ∃ σ1 σ2 id1 id2,
      __setitem__ sample_repr sample_uuid1 m (VStr "block-1") (VInst Block 2) scene
      = Ok σ1
      ∧ get_attr σ1 2 "uuid" = Some (VStr id1)
      ∧ __setitem__ sample_repr sample_uuid1 m (VStr "block-1") (VInst Block 3) σ1
        = Ok σ2
      ∧ __getitem__ sample_repr m (VStr "block-1") σ2 = Ok (VInst Block 3)
      ∧ the_dict σ2 (_elements m)
        = dict_set (VStr "block-1") (VInst Block 3) (the_dict σ1 (_elements m))
      ∧ length (the_dict σ2 (_elements m)) = length (the_dict σ1 (_elements m))
      ∧ get_attr σ2 3 "uuid" = Some (VStr id2)
      ∧ id1 ≠ id2.
Proof.
  intros m. split; [exact sample_uuid1_fresh|].
  apply (set_overwrites sample_repr sample_uuid1 m scene 2 3).
  exact sample_uuid1_fresh.
Defined.

Lemma add_package_spec_witness :
  let m := __init__ VNone None None in
  is_str (VInt 3) = false
  ∧ is_TypeError (add_package sample_repr sample_uuid1 m (VInt 3) scene) = true
  ∧ ∃ σ' l id,
      add_package sample_repr sample_uuid1 m (VStr "Vehicle") scene = Ok σ'
      ∧ add_package sample_repr sample_uuid1 m (VStr "Vehicle") scene
        = _setElement sample_repr sample_uuid1 m (VStr "Vehicle") (VInst Package l)
            (Package_new (VStr "Vehicle") scene).2
      ∧ dict_get (VStr "Vehicle") (the_dict σ' (_elements m)) = Some (VInst Package l)
      ∧ __getitem__ sample_repr m (VStr "Vehicle") σ' = Ok (VInst Package l)
      ∧ get_attr σ' l "label" = Some (VStr "Vehicle")
      ∧ get_attr σ' l "uuid" = Some (VStr id).
Proof.
  intros m. split; [reflexivity|].
  apply (add_package_spec sample_repr sample_uuid1 m scene (VInt 3) "Vehicle").
  reflexivity.
Defined.

Lemma assigned_ids_distinct_witness :
  let m := __init__ VNone None None in
  let calls := [ by_set (VStr "block-1") (VInst Block 2);
                 by_add (VInst Block 3);
                 by_package (VStr "Vehicle") ] in
  (∀ m n, sample_uuid1 m = sample_uuid1 n → m = n)
  ∧ ∃ ids σ',
      insert_all sample_repr sample_uuid1 no_subclass interned m calls scene
      = Ok (ids, σ')
      ∧ ids = [VStr "uuid-0"; VStr "uuid-1"; VStr "uuid-2"]
      ∧ length ids = length calls
      ∧ NoDup ids
      ∧ Forall (λ id, is_str id = true) ids.
Proof.
  intros m calls. split; [exact sample_uuid1_fresh|].
  eexists _, _. split; [vm_compute; reflexivity|]. split; [reflexivity|].
  eapply (assigned_ids_distinct sample_repr sample_uuid1 no_subclass interned
            m calls scene).
  - exact sample_uuid1_fresh.
  - vm_compute; reflexivity.
Defined.


(** ** The syntax of keys *)

Lemma is_digit_not_space (c : ascii) : is_digit c = true → is_space c = false.
Proof.
  unfold is_digit, is_space. cbv zeta.
  rewrite andb_true_iff, !Nat.leb_le. intros [H1 H2].
  apply orb_false_iff. split.
  - apply andb_false_iff. right. apply Nat.leb_gt. lia.
  - apply Nat.eqb_neq. lia.
Qed.

Lemma is_digit_not_dash (c : ascii) : is_digit c = true → Ascii.eqb c "-" = false.
Proof.
  intros Hd. destruct (Ascii.eqb_spec c "-") as [->|]; [discriminate|done].
Qed.

Lemma all_digits_strip (s : string) :
  all_digits s = true → lstrip s = s ∧ rstrip s = s.
Proof.
  intros Hs. split.
  - destruct s as [|c s]; [done|]. cbn in *.
    apply andb_true_iff in Hs as [Hc _]. by rewrite (is_digit_not_space c Hc).
  - induction s as [|c s IH]; [done|]. cbn in *.
    apply andb_true_iff in Hs as [Hc Hs]. rewrite (IH Hs).
    destruct s; [by rewrite (is_digit_not_space c Hc)|done].
Qed.

Lemma all_digits_value (s : string) (acc : Z) (after_digit : bool) :
  all_digits s = true → s ≠ EmptyString ∨ after_digit = true →
  ∃ n, digits acc after_digit s = Some n.
Proof.
  revert acc after_digit. induction s as [|c s IH]; intros acc b Hs Hne.
  - destruct Hne as [Hne| ->]; [done|]. by exists acc.
  - cbn in *. apply andb_true_iff in Hs as [Hc Hs]. rewrite Hc.
    apply IH; [done|by right].
Qed.

Lemma all_digits_split (s : string) :
  all_digits s = true → split "-" s = [s].
Proof.
  induction s as [|c s IH]; [done|]. cbn. intros Hs.
  apply andb_true_iff in Hs as [Hc Hs].
  by rewrite (is_digit_not_dash c Hc), (IH Hs).
Qed.

Lemma all_digits_int (s : string) :
  all_digits s = true → s ≠ EmptyString → ∃ n, py_int s = Ok n.
Proof.
  intros Hs Hne. unfold py_int, parse_int.
  destruct (all_digits_strip s Hs) as [Hl Hr]. rewrite Hl, Hr.
  destruct (all_digits_value s 0 false Hs (or_introl Hne)) as [n Hn].
  exists n.
  destruct s as [|c r]; [done|].
  assert (is_digit c = true) as Hc by (cbn in Hs; by apply andb_true_iff in Hs as [? _]).
  assert (c ≠ "+"%char ∧ c ≠ "-"%char) as [Hplus Hminus]
    by (split; intros ->; discriminate).
  destruct c as [[] [] [] [] [] [] [] []]; try done; by rewrite Hn.
Qed.

Lemma is_digit_pretty_N_char (x : N) : is_digit (pretty_N_char x) = true.
Proof. unfold pretty_N_char. by repeat case_match. Qed.

Lemma all_digits_pretty_N_go (x : N) (s : string) :
  all_digits s = true → all_digits (pretty_N_go x s) = true.
Proof.
  revert s. induction (N.lt_wf_0 x) as [x _ IH]; intros s Hs.
  destruct (decide (x = 0%N)) as [->|Hx]; [by rewrite pretty_N_go_0|].
  rewrite pretty_N_go_step by lia. apply IH.
  - apply N.div_lt; lia.
  - cbn. by rewrite is_digit_pretty_N_char.
Qed.

Lemma pretty_N_go_nonempty (x : N) (s : string) :
  s ≠ EmptyString → pretty_N_go x s ≠ EmptyString.
Proof.
  revert s. induction (N.lt_wf_0 x) as [x _ IH]; intros s Hs.
  destruct (decide (x = 0%N)) as [->|Hx]; [by rewrite pretty_N_go_0|].
  rewrite pretty_N_go_step by lia. apply IH; [apply N.div_lt; lia|done].
Qed.

(** [str(n)] is a non-empty string of digits. *)
Lemma all_digits_pretty (n : nat) :
  all_digits (pretty n) = true ∧ pretty n ≠ EmptyString.
Proof.
  unfold pretty, pretty_nat, pretty, pretty_N.
  case_decide as Hn; [done|]. split.
  - by apply all_digits_pretty_N_go.
  - rewrite pretty_N_go_step by lia. by apply pretty_N_go_nonempty.
Qed.

Lemma split_kind (kind t : string) :
  split "-" kind = [kind] →
  split "-" (kind ++ "-" ++ t) = kind :: split "-" t.
Proof.
  change ("-" ++ t) with (String "-" t).
  induction kind as [|c kind IH]; [done|].
  change (String c kind ++ String "-" t) with (String c (kind ++ String "-" t)).
  cbn [split]. destruct (Ascii.eqb c "-"); [intros ?; simplify_eq|].
  destruct (split "-" kind) as [|p ps] eqn:Hk; [intros ?; simplify_eq/=|].
  intros ?; simplify_eq. by rewrite IH.
Qed.

Lemma kinds_without_dash :
  Forall (λ kind, split "-" kind = [kind])
    (_validElements.*1 ++ _validRelationships.*1).
Proof. repeat constructor. Qed.

Lemma candidate_key_accepted (kind : string) (n : nat) :
  kind ∈ (_validElements.*1 ++ _validRelationships.*1)%list →
  ∃ z, split "-" (kind ++ "-" ++ pretty n) = [kind; pretty n]
       ∧ py_int (pretty n) = Ok z.
Proof.
  destruct (all_digits_pretty n) as [Hd Hne].
  destruct (all_digits_int _ Hd Hne) as [z Hz].
  pose proof kinds_without_dash as Hkinds. rewrite Forall_forall in Hkinds.
  intros Hk. exists z. split; [|done].
  by rewrite split_kind, (all_digits_split _ Hd) by by apply Hkinds.
Qed.

Lemma candidate_element_key (kind : string) (n : nat) :
  kind ∈ _validElements.*1 → _isValidElementKey (candidate kind n) = Ok true.
Proof.
  intros Hk.
  destruct (candidate_key_accepted kind n) as (z & Hsplit & Hz);
    [apply elem_of_app; by left|].
  unfold candidate, _isValidElementKey, py_split. cbn [bind].
  rewrite Hsplit. cbn [bind unpack2].
  rewrite bool_decide_eq_true_2 by done. by rewrite Hz.
Qed.

Lemma candidate_relationship_key (kind : string) (n : nat) :
  kind ∈ _validRelationships.*1 →
  _isValidRelationshipKey (candidate kind n) = Ok true.
Proof.
  intros Hk.
  destruct (candidate_key_accepted kind n) as (z & Hsplit & Hz);
    [apply elem_of_app; by right|].
  unfold candidate, _isValidRelationshipKey, py_split. cbn [bind].
  rewrite Hsplit. cbn [bind unpack2].
  rewrite bool_decide_eq_true_2 by done. by rewrite Hz.
Qed.

(** X1. Every key the generator can form is a key the validators accept:
    "<kind>-<n>" is a valid element key for each of the four element kinds
    and a valid relationship key for each of the eight relationship kinds,
    whatever the number. *)
Theorem candidate_keys_valid (ekind rkind : string) (n : nat) :
  ekind ∈ _validElements.*1 → rkind ∈ _validRelationships.*1 →
  _isValidElementKey (candidate ekind n) = Ok true
  ∧ _isValidRelationshipKey (candidate rkind n) = Ok true.
Proof.
  intros He Hr. split.
  - by apply candidate_element_key.
  - by apply candidate_relationship_key.
Qed.

(** ** The key generator *)

Lemma dict_has_keys (k : value) (d : dict) :
  dict_has k d = true → k ∈ dict_keys d.
Proof.
  unfold dict_has, dict_keys. induction d as [|[k' v] d IH]; cbn; [done|].
  case_bool_decide as Hk; [subst; intros _; apply elem_of_cons; by left|].
  intros Hd. apply elem_of_cons. right. by apply IH.
Qed.

Lemma dict_has_false_keys (k : value) (d : dict) :
  dict_has k d = false → k ∉ dict_keys d.
Proof.
  unfold dict_has, dict_keys. induction d as [|[k' v] d IH]; cbn.
  - intros _. apply not_elem_of_nil.
  - case_bool_decide as Hk; [done|]. intros Hd.
    apply not_elem_of_cons. split; [done|by apply IH].
Qed.

Global Instance candidate_inj (kind : string) : Inj (=) (=) (candidate kind).
Proof.
  intros i j [= Heq]. apply (inj (String.append kind)) in Heq.
  apply (inj (String.append "-")) in Heq. by apply (inj pretty).
Qed.

(** The inner loop over [range(start, start+n)] returns the first
    candidate that is free; every candidate before it is taken. *)
Lemma probe_seq_Some (kind : string) (d : dict) (start n : nat) (key : value) :
  probe kind d (seq start n) = Some key →
  ∃ i, start ≤ i < start + n
       ∧ key = candidate kind i
       ∧ dict_has key d = false
       ∧ ∀ j, start ≤ j < i → dict_has (candidate kind j) d = true.
Proof.
  revert start. induction n as [|n IH]; intros start; cbn; [done|].
  fold (candidate kind start).
  destruct (dict_has (candidate kind start) d) eqn:Hstart.
  - intros Hp. destruct (IH _ Hp) as (i & Hi & -> & Hfree & Hbefore).
    exists i. repeat split; [lia|lia|done|].
    intros j Hj. destruct (decide (j = start)) as [->|]; [done|].
    apply Hbefore. lia.
  - intros [= <-]. exists start. repeat split; [lia|lia|done|].
    intros j Hj. lia.
Qed.

Lemma probe_seq_None (kind : string) (d : dict) (start n : nat) :
  probe kind d (seq start n) = None →
  ∀ j, start ≤ j < start + n → dict_has (candidate kind j) d = true.
Proof.
  revert start. induction n as [|n IH]; intros start; cbn; [lia|].
  fold (candidate kind start).
  destruct (dict_has (candidate kind start) d) eqn:Hstart; [|done].
  intros Hp j Hj. destruct (decide (j = start)) as [->|]; [done|].
  apply (IH _ Hp). lia.
Qed.

(** [len(store) + 1] probes are enough: the candidates are distinct keys
    and the store cannot hold them all. *)
Lemma probe_finds (kind : string) (d : dict) :
  ∃ key, probe kind d (seq 1 (length d + 1)) = Some key.
Proof.
  destruct (probe kind d (seq 1 (length d + 1))) as [key|] eqn:Hp; [by eexists|].
  exfalso.
  assert (candidate kind <$> seq 1 (length d + 1) ⊆+ dict_keys d) as Hsub.
  { apply NoDup_submseteq.
    - apply (NoDup_fmap_2 _), NoDup_seq.
    - intros k (j & -> & Hj)%list_elem_of_fmap. apply dict_has_keys.
      apply (probe_seq_None _ _ _ _ Hp). apply elem_of_seq in Hj. lia. }
  apply submseteq_length in Hsub.
  unfold dict_keys in Hsub. rewrite !length_fmap, length_seq in Hsub. lia.
Qed.

Section Generator.

Variable repr : value → string.
Variable uuid1 : nat → string.
Variable subclass : pyclass → pyclass → bool.
Variable str_is : value → string → bool.

Lemma element_key_found kinds c l d :
  (∃ kind cls, (kind, cls) ∈ kinds ∧ isinstance subclass (VInst c l) cls = true) →
  ∃ kind i,
    kind ∈ kinds.*1
    ∧ element_key subclass kinds (VInst c l) d (length d + 1) = candidate kind i
    ∧ (1 ≤ i ≤ length d + 1)%nat
    ∧ dict_has (candidate kind i) d = false.
Proof.
  induction kinds as [|[kind0 cls0] kinds IH]; intros (kind & cls & Hin & Hinst).
  - by apply elem_of_nil in Hin.
  - cbn [element_key].
    destruct (isinstance subclass (VInst c l) cls0) eqn:H0.
    + destruct (probe_finds kind0 d) as [key Hkey]. rewrite Hkey.
      apply probe_seq_Some in Hkey as (i & Hi & -> & Hfree & _).
      exists kind0, i. repeat split; [apply elem_of_cons; by left|lia|lia|done].
    + apply elem_of_cons in Hin as [[= -> ->]|Hin]; [congruence|].
      destruct IH as (k & i & Hk & Hgen & Hi & Hfree); [by eauto|].
      exists k, i. repeat split; [apply elem_of_cons; by right|done|lia|lia|done].
Qed.

Lemma _generateKey_element self c l σ :
  _isValidElement (VInst c l) = true →
  let store := the_dict σ (_elements self) in
  ∃ kind i,
    _generateKey subclass str_is self (VInst c l) (length store + 1) σ
    = Ok (candidate kind i)
    ∧ kind ∈ _validElements.*1
    ∧ (1 ≤ i ≤ length store + 1)%nat
    ∧ dict_has (candidate kind i) store = false
    ∧ _isValidElementKey (candidate kind i) = Ok true.
Proof.
  intros Hvalid store. unfold _generateKey. rewrite Hvalid.
  destruct (element_key_found _validElements c l store) as (kind & i & Hk & Hgen & Hi & Hfree).
  { unfold _isValidElement, type_in in Hvalid. cbn [class_of] in Hvalid.
    apply bool_decide_eq_true_1 in Hvalid.
    apply list_elem_of_fmap in Hvalid as ([kind cls] & -> & Hin).
    exists kind, cls. split; [done|].
    unfold isinstance. cbn. by rewrite bool_decide_eq_true_2. }
  exists kind, i. fold store. rewrite Hgen. repeat split; try done; try lia.
  by apply candidate_element_key.
Qed.

(** X2. For an instance of a registered class, [_generateKey] called as
    [add_elements] calls it, with [len(store) + 1] probes, always returns a
    key "<kind>-<i>" of an element kind, with [i] between 1 and
    [len(store) + 1]; the key is not in the element store, and it is a
    valid element key. *)
Theorem generated_key_fresh self c l σ :
  _isValidElement (VInst c l) = true →
  let store := the_dict σ (_elements self) in
  ∃ kind i,
    _generateKey subclass str_is self (VInst c l) (length store + 1) σ
    = Ok (candidate kind i)
    ∧ kind ∈ _validElements.*1
    ∧ (1 ≤ i ≤ length store + 1)%nat
    ∧ dict_has (candidate kind i) store = false
    ∧ _isValidElementKey (candidate kind i) = Ok true.
Proof. apply _generateKey_element. Qed.

Lemma isinstance_exact c l cls :
  (∀ a b, subclass a b = false) →
  isinstance subclass (VInst c l) cls = bool_decide (c = cls).
Proof. intros Hsub. unfold isinstance. cbn. by rewrite Hsub, orb_false_r. Qed.

(** X3. Without subclassing among the element classes, the key generated
    for an instance of a registered class carries the kind name of that
    class and the lowest sequence number that is free for the kind: every
    smaller number is taken in the element store. *)
Theorem generated_key_lowest self kind c l σ :
  (∀ a b, subclass a b = false) →
  (kind, c) ∈ _validElements →
  let store := the_dict σ (_elements self) in
  ∃ i,
    _generateKey subclass str_is self (VInst c l) (length store + 1) σ
    = Ok (candidate kind i)
    ∧ (1 ≤ i ≤ length store + 1)%nat
    ∧ dict_has (candidate kind i) store = false
    ∧ ∀ j, (1 ≤ j < i)%nat → dict_has (candidate kind j) store = true.
Proof.
  intros Hsub Hin store.
  destruct (probe_finds kind store) as [key Hkey].
  pose proof Hkey as Hkey'.
  apply probe_seq_Some in Hkey' as (i & Hi & -> & Hfree & Hbefore).
  exists i. split; [|repeat split; [lia|lia|done|done]].
  unfold _generateKey. fold store.
  cbn in Hin. set_unfold.
  destruct Hin as [[= -> ->]|[[= -> ->]|[[= -> ->]|[[= -> ->]|[]]]]];
    change (_isValidElement (VInst _ l)) with true; cbv iota;
    cbn [element_key _validElements];
    rewrite !isinstance_exact by done;
    repeat (rewrite bool_decide_eq_false_2 by done);
    rewrite bool_decide_eq_true_2 by done;
    by rewrite Hkey.
Qed.

Lemma valid_element_instance element :
  _isValidElement element = true → ∃ c l, element = VInst c l.
Proof. destruct element; try done. eauto. Qed.

Lemma dict_set_fresh k v d :
  dict_has k d = false → dict_set k v d = (d ++ [(k, v)])%list.
Proof.
  unfold dict_has. induction d as [|[k' v'] d IH]; cbn; [done|].
  case_bool_decide; [done|]. intros Hd. by rewrite IH.
Qed.

Lemma _setElement_valid self key element σ σ' :
  _setElement repr uuid1 self key element σ = Ok σ' →
  _isValidElement element = true.
Proof.
  intros Hrun. destruct (_isValidElement element) eqn:Hvalid; [done|].
  destruct (decide (key = VNone)) as [->|Hnone]; [done|].
  by rewrite _setElement_invalid in Hrun.
Qed.

Lemma add_elements_appends_aux self elementv σ :
  Forall (λ e, _isValidElement e = true) elementv →
  ∃ keys σ',
    add_elements repr uuid1 subclass str_is self elementv σ = Ok σ'
    ∧ length keys = length elementv
    ∧ the_dict σ' (_elements self)
      = (the_dict σ (_elements self) ++ zip keys elementv)%list
    ∧ Forall (λ key, _isValidElementKey key = Ok true) keys
    ∧ uuid_calls σ' = (uuid_calls σ + length elementv)%nat.
Proof.
  revert σ. induction elementv as [|e elementv IH]; intros σ Hall.
  - exists [], σ. cbn. rewrite app_nil_r. repeat split; [constructor|lia].
  - apply Forall_cons in Hall as [He Hall].
    destruct (valid_element_instance e He) as (c & l & ->).
    destruct (_generateKey_element self c l σ He)
      as (kind & i & Hgen & Hkind & Hi & Hfree & Hkey).
    cbn [add_elements]. rewrite Hgen. cbn [bind].
    rewrite _setElement_ok by done. cbn [bind].
    destruct (IH (inserted uuid1 self (candidate kind i) c l σ) Hall)
      as (keys & σ' & Hrun & Hlen & Hstore & Hkeys & Hcalls).
    exists (candidate kind i :: keys), σ'. repeat split.
    + exact Hrun.
    + cbn. by rewrite Hlen.
    + rewrite Hstore, the_dict_inserted, dict_set_fresh by done.
      by rewrite <- app_assoc.
    + by constructor.
    + rewrite Hcalls, uuid_calls_inserted. cbn. lia.
Qed.

(** X4. [add_elements] on instances of registered classes always
    succeeds, and it only appends: the element store afterwards is the
    store before followed by one entry per argument, in the order of the
    arguments, each under a valid element key; one identifier is drawn per
    argument. No existing entry is overwritten or moved. *)
Theorem add_elements_appends self elementv σ :
  Forall (λ e, _isValidElement e = true) elementv →
  ∃ keys σ',
    add_elements repr uuid1 subclass str_is self elementv σ = Ok σ'
    ∧ length keys = length elementv
    ∧ the_dict σ' (_elements self)
      = (the_dict σ (_elements self) ++ zip keys elementv)%list
    ∧ Forall (λ key, _isValidElementKey key = Ok true) keys
    ∧ uuid_calls σ' = (uuid_calls σ + length elementv)%nat.
Proof. apply add_elements_appends_aux. Qed.

Lemma add_elements_Ok_valid self elementv σ σ' :
  add_elements repr uuid1 subclass str_is self elementv σ = Ok σ' →
  Forall (λ e, _isValidElement e = true) elementv.
Proof.
  revert σ. induction elementv as [|e elementv IH]; intros σ; [by constructor|].
  cbn [add_elements].
  destruct (_generateKey subclass str_is self e _ σ) as [key|]; cbn [bind]; [|done].
  destruct (_setElement repr uuid1 self key e σ) as [σ1|] eqn:Hset;
    cbn [bind]; [|done].
  intros Hrest. constructor; [by eapply _setElement_valid|by eapply IH].
Qed.

(** X5. [add_elements] succeeds exactly when every argument is an
    instance of a registered class: one argument of any other type (None,
    a number, a string, a dict, an instance of another class) makes the
    call raise. *)
Theorem add_elements_succeeds_iff self elementv σ :
  (∃ σ', add_elements repr uuid1 subclass str_is self elementv σ = Ok σ')
  ↔ Forall (λ e, _isValidElement e = true) elementv.
Proof.
  split.
  - intros [σ' Hrun]. by eapply add_elements_Ok_valid.
  - intros Hall.
    destruct (add_elements_appends_aux self elementv σ Hall) as (? & σ' & Hrun & _).
    by exists σ'.
Qed.

(** ** What a successful [model[key] = value] has done *)

Lemma valid_element_key_str key :
  _isValidElementKey key = Ok true → ∃ s, key = VStr s.
Proof. destruct key; try done. eauto. Qed.

Lemma valid_relationship_key_str key :
  _isValidRelationshipKey key = Ok true → ∃ s, key = VStr s.
Proof. destruct key; try done. eauto. Qed.

Lemma _setRelationship_Ok self key relationship σ σ' :
  _isValidRelationshipKey key = Ok true →
  _setRelationship self key relationship σ = Ok σ' →
  passes_checks self key relationship σ = true
  ∧ ∃ ls, _relationships self = Some ls
          ∧ σ' = put_dict ls (dict_set key relationship (the_dict σ ls)) σ.
Proof.
  intros Hkey. destruct (valid_relationship_key_str key Hkey) as [s ->].
  unfold passes_checks, _setRelationship. rewrite Hkey. cbn [bind].
  destruct (subscript σ relationship "source") as [source|]; cbn [bind]; [|done].
  destruct (key_in source _) as [[]|]; cbn [bind negb]; [|done|done].
  destruct (subscript σ relationship "target") as [target|]; cbn [bind]; [|done].
  destruct (key_in target _) as [[]|]; cbn [bind negb andb]; [| |done].
  - destruct (_isValidRelationship self relationship σ) as [[]|];
      cbn [bind negb andb]; [| |done].
    + unfold relationships_attr.
      destruct (_relationships self) as [ls|]; cbn [bind dict_store hashable]; [|done].
      intros [= <-]. eauto.
    + by destruct (add_str source " and ").
  - by destruct (add_str target " does not exist in model.").
Qed.

Lemma __setitem___inv self key element σ σ' :
  __setitem__ repr uuid1 self key element σ = Ok σ' →
  (_isValidElementKey key = Ok true
   ∧ _isValidElement element = true
   ∧ ∃ c l, element = VInst c l ∧ σ' = inserted uuid1 self key c l σ)
  ∨ (_isValidRelationshipKey key = Ok true
     ∧ passes_checks self key element σ = true
     ∧ ∃ ls, _relationships self = Some ls
             ∧ σ' = put_dict ls (dict_set key element (the_dict σ ls)) σ).
Proof.
  unfold __setitem__.
  destruct (_isValidElementKey key) as [[]|]; cbn [bind]; [| |done].
  - intros Hset. left. split; [done|]. split; [by eapply _setElement_valid|].
    by eapply _setElement_inv.
  - destruct (_isValidRelationshipKey key) as [[]|] eqn:Hkey; cbn [bind]; [|done|done].
    intros Hset. right. split; [done|]. by apply _setRelationship_Ok.
Qed.

(** X6. A call [model[key] = value] that returns has done one of two
    things. Either the key is a valid element key, the value is an
    instance of a registered class, and the value was stored under the key
    in the element store and given the next identifier; or the key is a
    valid relationship key, the instance has a relationship store, the
    value passed the source, target and schema checks, and it was stored
    under the key in the relationship store. Nothing is ever stored under
    a key that neither validator accepts. *)
Theorem __setitem___success self key element σ σ' :
  __setitem__ repr uuid1 self key element σ = Ok σ' →
  (_isValidElementKey key = Ok true
   ∧ _isValidElement element = true
   ∧ ∃ c l, element = VInst c l ∧ σ' = inserted uuid1 self key c l σ)
  ∨ (_isValidRelationshipKey key = Ok true
     ∧ passes_checks self key element σ = true
     ∧ ∃ ls, _relationships self = Some ls
             ∧ σ' = put_dict ls (dict_set key element (the_dict σ ls)) σ).
Proof. apply __setitem___inv. Qed.

(** X7. Insert, then look up: for any valid element key and any instance
    of a registered class (the kind in the key and the class need not
    agree), [model[key] = e] succeeds, [model[key]] then returns [e], and
    [e.uuid] is the identifier drawn by this call, whatever [e.uuid] was
    before. *)
Theorem element_round_trip self key c l σ :
  _isValidElementKey key = Ok true →
  _isValidElement (VInst c l) = true →
  ∃ σ',
    __setitem__ repr uuid1 self key (VInst c l) σ = Ok σ'
    ∧ __getitem__ repr self key σ' = Ok (VInst c l)
    ∧ get_attr σ' l "uuid" = Some (VStr (uuid1 (uuid_calls σ)))
    ∧ uuid_calls σ' = S (uuid_calls σ).
Proof.
  intros Hkey Hvalid. destruct (valid_element_key_str key Hkey) as [s ->].
  exists (inserted uuid1 self (VStr s) c l σ). repeat split.
  - rewrite __setitem___element by done. by apply _setElement_ok.
  - apply __getitem___element; [done|].
    rewrite the_dict_inserted. apply dict_get_set_eq.
  - apply get_attr_inserted.
Qed.

(** X8. What [model[key] = value] leaves alone when it returns: every dict
    other than the two stores of the instance, every other key of those
    stores, every attribute other than the [uuid] of the value, and the
    allocation pointer. *)
Theorem __setitem___frame self key element σ σ' :
  __setitem__ repr uuid1 self key element σ = Ok σ' →
  (∀ l' k,
     (l' ≠ _elements self ∧ _relationships self ≠ Some l') ∨ k ≠ key →
     dict_get k (the_dict σ' l') = dict_get k (the_dict σ l'))
  ∧ (∀ l' name,
       (∀ c, element ≠ VInst c l') ∨ name ≠ "uuid" →
       get_attr σ' l' name = get_attr σ l' name)
  ∧ next_loc σ' = next_loc σ.
Proof.
  intros Hset.
  apply __setitem___inv in Hset
    as [(_ & _ & c & l & -> & ->)|(_ & _ & ls & Hls & ->)].
  - repeat split.
    + intros l' k Hor. unfold inserted.
      change (the_dict (put_attr ?a ?b ?v (tick_uuid ?s)) l') with (the_dict s l').
      destruct (decide (l' = _elements self)) as [->|Hl'].
      * rewrite the_dict_put_eq. apply dict_get_set_ne.
        destruct Hor as [[Hne _]|Hne]; [by destruct Hne|exact Hne].
      * by rewrite the_dict_put_ne.
    + intros l' name Hor. unfold inserted.
      rewrite get_attr_put_ne; [done|]. intros [= -> ->].
      destruct Hor as [Hne|Hne]; [by destruct (Hne c)|by destruct Hne].
  - repeat split.
    intros l' k Hor.
    destruct (decide (l' = ls)) as [->|Hl'].
    + rewrite the_dict_put_eq. apply dict_get_set_ne.
      destruct Hor as [[_ Hne]|Hne]; [by destruct Hne|exact Hne].
    + by rewrite the_dict_put_ne.
Qed.

Lemma element_key_not_relationship key :
  _isValidElementKey key = Ok true → _isValidRelationshipKey key = Ok false.
Proof.
  unfold _isValidRelationshipKey, _isValidElementKey.
  destruct (py_split key) as [parts|]; cbn [bind]; [|done].
  destruct (unpack2 parts) as [[name id_no]|]; cbn [bind]; [|done].
  case_bool_decide as He; [|done]. intros _.
  rewrite bool_decide_eq_false_2; [done|].
  assert (Forall (λ n, n ∉ _validRelationships.*1) (_validElements.*1)) as HF
    by (apply (bool_decide_eq_true_1 _); vm_compute; reflexivity).
  rewrite Forall_forall in HF. by apply HF.
Qed.

(** X9. No key is accepted by both validators: the names of the element
    kinds and of the relationship kinds are disjoint, so a valid element
    key is refused as a relationship key and a valid relationship key is
    refused as an element key. *)
Theorem key_kinds_exclusive k1 k2 :
  _isValidElementKey k1 = Ok true →
  _isValidRelationshipKey k2 = Ok true →
  _isValidRelationshipKey k1 = Ok false ∧ _isValidElementKey k2 = Ok false.
Proof.
  intros H1 H2. split.
  - by apply element_key_not_relationship.
  - by apply relationship_key_not_element.
Qed.

(** ** Relationships on an instance that has a relationship store *)

Lemma rule_of_Ok relationshipType rule :
  rule_of relationshipType = Ok rule →
  ∃ kind, relationshipType = VStr kind
          ∧ kind ∈ _validRelationships.*1
          ∧ rule = ([Block], [Block]).
Proof.
  unfold rule_of. destruct relationshipType as [| |kind| |]; cbn [hashable]; try done.
  destruct (list_find _ _) as [[i [k r]]|] eqn:Hf; [|done].
  intros [= <-]. apply list_find_Some in Hf as (Hlook & Hk & _).
  apply bool_decide_unpack in Hk. cbn in Hk. subst k.
  apply list_elem_of_lookup_2 in Hlook.
  exists kind. split; [done|]. split.
  - apply list_elem_of_fmap. by exists (kind, r).
  - assert (Forall (λ e, e.2 = ([Block], [Block])) _validRelationships) as HF
      by repeat constructor.
    rewrite Forall_forall in HF. by apply (HF _ Hlook).
Qed.

Lemma type_in_Block v : type_in v [Block] = true → ∃ l, v = VInst Block l.
Proof.
  unfold type_in. destruct v as [| | |c l|]; cbn; try done.
  intros Hc. apply bool_decide_eq_true_1, list_elem_of_singleton in Hc.
  subst. eauto.
Qed.

Lemma dict_item_Ok d k v : dict_item d k = Ok v → dict_get k d = Some v.
Proof.
  unfold dict_item. destruct (hashable k); [|done].
  destruct (dict_get k d); [|done]. by intros [= ->].
Qed.

(** What a record that [_isValidRelationship] accepts looks like. *)
Lemma _isValidRelationship_true self relationship σ :
  _isValidRelationship self relationship σ = Ok true →
  ∃ source target ls lt kind,
    subscript σ relationship "source" = Ok source
    ∧ dict_get source (the_dict σ (_elements self)) = Some (VInst Block ls)
    ∧ subscript σ relationship "target" = Ok target
    ∧ dict_get target (the_dict σ (_elements self)) = Some (VInst Block lt)
    ∧ subscript σ relationship "relationshipType" = Ok (VStr kind)
    ∧ kind ∈ _validRelationships.*1.
Proof.
  unfold _isValidRelationship.
  destruct (subscript σ relationship "source") as [source|]; cbn [bind]; [|done].
  destruct (dict_item _ source) as [vs|] eqn:Hs; cbn [bind]; [|done].
  destruct (subscript σ relationship "target") as [target|]; cbn [bind]; [|done].
  destruct (dict_item _ target) as [vt|] eqn:Ht; cbn [bind]; [|done].
  destruct (subscript σ relationship "relationshipType") as [rt|]; cbn [bind]; [|done].
  destruct (rule_of rt) as [rule|] eqn:Hrule; cbn [bind]; [|done].
  apply rule_of_Ok in Hrule as (kind & -> & Hkind & ->). cbn [fst snd].
  intros [= [Hvs Hvt]%andb_true_iff].
  apply type_in_Block in Hvs as [ls ->]. apply type_in_Block in Hvt as [lt ->].
  apply dict_item_Ok in Hs, Ht.
  by exists source, target, ls, lt, kind.
Qed.

Lemma _setRelationship_valid self key relationship σ σ' :
  _setRelationship self key relationship σ = Ok σ' →
  _isValidRelationship self relationship σ = Ok true.
Proof.
  unfold _setRelationship.
  destruct (subscript σ relationship "source") as [source|]; cbn [bind]; [|done].
  destruct (key_in source _) as [[]|]; cbn [bind negb]; [|done|done].
  destruct (subscript σ relationship "target") as [target|]; cbn [bind]; [|done].
  destruct (key_in target _) as [[]|]; cbn [bind negb]; [| |done].
  - destruct (_isValidRelationship self relationship σ) as [[]|];
      cbn [bind negb]; [done| |done].
    by destruct (add_str source " and ").
  - by destruct (add_str target " does not exist in model.").
Qed.

(** X10. Whatever the key, [_setRelationship] stores a record only if its
    source and its target are keys of the element store under which Blocks
    are stored, and its relationshipType is one of the eight registered
    kinds. *)
Theorem stored_relationship_ends self key relationship σ σ' :
  _setRelationship self key relationship σ = Ok σ' →
  ∃ source target ls lt kind,
    subscript σ relationship "source" = Ok source
    ∧ dict_get source (the_dict σ (_elements self)) = Some (VInst Block ls)
    ∧ subscript σ relationship "target" = Ok target
    ∧ dict_get target (the_dict σ (_elements self)) = Some (VInst Block lt)
    ∧ subscript σ relationship "relationshipType" = Ok (VStr kind)
    ∧ kind ∈ _validRelationships.*1.
Proof.
  intros Hset. by eapply _isValidRelationship_true, _setRelationship_valid.
Qed.

(** The parts of [passes_checks]. *)
Lemma passes_checks_parts self key relationship σ :
  passes_checks self key relationship σ = true →
  _isValidRelationshipKey key = Ok true
  ∧ _isValidRelationship self relationship σ = Ok true
  ∧ ∃ source target,
      subscript σ relationship "source" = Ok source
      ∧ key_in source (the_dict σ (_elements self)) = Ok true
      ∧ subscript σ relationship "target" = Ok target
      ∧ key_in target (the_dict σ (_elements self)) = Ok true.
Proof.
  unfold passes_checks.
  destruct (_isValidRelationshipKey key) as [is_key|]; cbn [bind]; [|done].
  destruct (subscript σ relationship "source") as [source|]; cbn [bind]; [|done].
  destruct (key_in source _) as [has_source|] eqn:Hs; cbn [bind]; [|done].
  destruct (subscript σ relationship "target") as [target|]; cbn [bind]; [|done].
  destruct (key_in target _) as [has_target|] eqn:Ht; cbn [bind]; [|done].
  destruct is_key, has_source, has_target; cbn [andb negb bind];
    try (destruct (_isValidRelationship self relationship σ) as [[]|]; done).
  destruct (_isValidRelationship self relationship σ) as [[]|];
    cbn [andb negb bind]; try done.
  intros _. split; [done|]. split; [done|]. by exists source, target.
Qed.

(** A record that passes the checks is stored under any hashable key. *)
Lemma _setRelationship_checked self key0 key relationship σ ls :
  _relationships self = Some ls → hashable key = true →
  passes_checks self key0 relationship σ = true →
  _setRelationship self key relationship σ
  = Ok (put_dict ls (dict_set key relationship (the_dict σ ls)) σ).
Proof.
  intros Hls Hhash Hchecks.
  apply passes_checks_parts in Hchecks
    as (_ & Hvalid & source & target & Hs & Hsin & Ht & Htin).
  unfold _setRelationship. rewrite Hs; cbn [bind]. rewrite Hsin; cbn [bind negb].
  rewrite Ht; cbn [bind]. rewrite Htin; cbn [bind negb].
  rewrite Hvalid; cbn [bind negb].
  unfold relationships_attr, dict_store. by rewrite Hls, Hhash.
Qed.

(** X11. Insert a relationship, then look it up: on an instance that has a
    relationship store, a record that passes the checks, set under a valid
    relationship key that is not a key of the element store, is stored in
    the relationship store and [model[key]] then returns it. *)
Theorem relationship_round_trip self key relationship σ ls :
  _relationships self = Some ls →
  passes_checks self key relationship σ = true →
  dict_has key (the_dict σ (_elements self)) = false →
  ∃ σ',
    __setitem__ repr uuid1 self key relationship σ = Ok σ'
    ∧ the_dict σ' ls = dict_set key relationship (the_dict σ ls)
    ∧ __getitem__ repr self key σ' = Ok relationship.
Proof.
  intros Hls Hchecks Hfree.
  pose proof (passes_checks_parts _ _ _ _ Hchecks) as (Hkey & _).
  destruct (valid_relationship_key_str key Hkey) as [s ->].
  exists (put_dict ls (dict_set (VStr s) relationship (the_dict σ ls)) σ).
  split; [|split].
  - unfold __setitem__.
    rewrite (relationship_key_not_element _ Hkey). cbn [bind].
    rewrite Hkey. cbn [bind]. by eapply _setRelationship_checked.
  - apply the_dict_put_eq.
  - destruct (decide (ls = _elements self)) as [->|Hne].
    + apply __getitem___element; [done|].
      rewrite the_dict_put_eq. apply dict_get_set_eq.
    + unfold __getitem__, key_in, relationships_attr, dict_item. cbn [hashable].
      rewrite the_dict_put_ne by done. rewrite Hfree, Hls. cbn [bind].
      rewrite the_dict_put_eq, dict_has_set_eq. cbn [bind].
      by rewrite dict_get_set_eq.
Qed.

(** ** An invariant of the element store *)

Lemma dict_set_Forall (P : value * value → Prop) k v d :
  Forall P d → P (k, v) → Forall P (dict_set k v d).
Proof.
  intros Hd Hkv. induction Hd as [|[k' v'] d Hx Hd IH]; cbn.
  - by repeat constructor.
  - case_bool_decide; by constructor.
Qed.

Lemma dict_has_set_mono k k' v d :
  dict_has k d = true → dict_has k (dict_set k' v d) = true.
Proof.
  intros Hk. destruct (decide (k = k')) as [->|Hne]; [apply dict_has_set_eq|].
  unfold dict_has in *. by rewrite dict_get_set_ne.
Qed.

(** The element store after one successful insertion. *)
Lemma insert_store self i σ id σ' :
  insert repr uuid1 subclass str_is self i σ = Ok (id, σ') →
  ∃ key c l,
    _isValidElement (VInst c l) = true
    ∧ the_dict σ' (_elements self)
      = dict_set key (VInst c l) (the_dict σ (_elements self)).
Proof.
  destruct i as [key element|element|label]; cbn [insert].
  - destruct (__setitem__ repr uuid1 self key element σ) as [σ1|] eqn:Hset;
      cbn [bind]; [|done].
    apply __setitem___inv in Hset
      as [(_ & Hvalid & c & l & -> & ->)|(_ & Hchecks & _)].
    + unfold py_getattr. rewrite get_attr_inserted. cbn [bind].
      intros [= <- <-]. exists key, c, l. by rewrite the_dict_inserted.
    + apply passes_checks_parts in Hchecks as (_ & _ & source & ? & Hs & _).
      destruct element; done.
  - cbn [add_elements].
    destruct (_generateKey subclass str_is self element _ σ) as [key|];
      cbn [bind]; [|done].
    destruct (_setElement repr uuid1 self key element σ) as [σ1|] eqn:Hset;
      cbn [bind]; [|done].
    pose proof (_setElement_valid _ _ _ _ _ Hset) as Hvalid.
    apply _setElement_inv in Hset as (c & l & -> & ->).
    unfold py_getattr. rewrite get_attr_inserted. cbn [bind].
    intros [= <- <-]. exists key, c, l. by rewrite the_dict_inserted.
  - unfold add_package.
    destruct label as [| |s| |]; cbn [add_str bind]; try done.
    unfold Package_new.
    rewrite _setElement_ok by done. cbn [bind].
    unfold py_getattr. rewrite get_attr_inserted. cbn [bind].
    intros [= <- <-]. exists (VStr s), Package, (next_loc σ).
    by rewrite the_dict_inserted.
Qed.

(** X12. If every value of the element store is an instance of a
    registered class, this is still so after any sequence of successful
    insertions by [model[key] = e], [add_elements(e)] and
    [add_package(label)]; and no key of the store is ever lost. *)
Theorem store_valid_kept self calls σ ids σ' :
  store_valid self σ →
  insert_all repr uuid1 subclass str_is self calls σ = Ok (ids, σ') →
  store_valid self σ'
  ∧ ∀ k, dict_has k (the_dict σ (_elements self)) = true →
         dict_has k (the_dict σ' (_elements self)) = true.
Proof.
  revert σ ids σ'. induction calls as [|i calls IH]; intros σ ids σ' Hinv.
  - cbn. by intros [= <- <-].
  - cbn [insert_all].
    destruct (insert repr uuid1 subclass str_is self i σ) as [[id σ1]|] eqn:Hi;
      cbn [bind fst snd]; [|done].
    destruct (insert_all repr uuid1 subclass str_is self calls σ1)
      as [[ids1 σ2]|] eqn:Hrest; cbn [bind fst snd]; [|done].
    intros [= <- <-].
    apply insert_store in Hi as (key & c & l & Hvalid & Hstore).
    assert (store_valid self σ1) as Hinv1
      by (unfold store_valid; rewrite Hstore; by apply dict_set_Forall).
    destruct (IH _ _ _ Hinv1 Hrest) as [Hinv2 Hkeys].
    split; [done|]. intros k Hk. apply Hkeys. rewrite Hstore.
    by apply dict_has_set_mono.
Qed.

(** ** [add_relationships] on an instance that has a relationship store *)

Lemma relationship_key_same kinds self relationship σ ls kind key :
  (∀ v k, str_is v k = bool_decide (v = VStr k)) →
  _relationships self = Some ls →
  subscript σ relationship "relationshipType" = Ok (VStr kind) →
  kind ∈ kinds →
  probe kind (the_dict σ ls) (seq 1 (length (the_dict σ ls) + 1)) = Some key →
  relationship_key str_is kinds self relationship σ (length (the_dict σ ls) + 1)
  = Ok key.
Proof.
  intros His Hls Hrt Hin Hkey. rewrite Nat.add_1_r in *.
  induction kinds as [|k0 kinds IH]; [by apply elem_of_nil in Hin|].
  cbn [relationship_key]. rewrite Hrt. cbn [bind]. rewrite His.
  case_bool_decide as Hk.
  - injection Hk as <-. cbn [seq]. unfold relationships_attr. rewrite Hls. cbn [bind].
    change (1 :: seq 2 (length (the_dict σ ls)))
      with (seq 1 (S (length (the_dict σ ls)))).
    by rewrite Hkey.
  - apply IH. apply elem_of_cons in Hin as [->|Hin]; [done|done].
Qed.

Lemma relationship_key_never kinds self relationship σ n rt :
  (∀ v k, str_is v k = false) →
  subscript σ relationship "relationshipType" = Ok rt →
  relationship_key str_is kinds self relationship σ n = Ok VNone.
Proof.
  intros His Hrt. induction kinds as [|k0 kinds IH]; [done|].
  cbn [relationship_key]. rewrite Hrt. cbn [bind]. by rewrite His.
Qed.

(** X13. On an instance that has a relationship store, when [is] holds
    between the relationshipType of a record and the key of the schema
    table that equals it, [add_relationships(r)] for a record that passes
    the checks appends it to the relationship store under the key
    "<kind>-<i>", where [kind] is its relationshipType and [i] is the
    lowest sequence number free for that kind; the key is a valid
    relationship key. *)
Theorem add_relationships_appends self key0 relationship σ ls :
  (∀ v k, str_is v k = bool_decide (v = VStr k)) →
  _relationships self = Some ls →
  passes_checks self key0 relationship σ = true →
  ∃ kind i σ',
    subscript σ relationship "relationshipType" = Ok (VStr kind)
    ∧ add_relationships subclass str_is self [relationship] σ = Ok σ'
    ∧ the_dict σ' ls = (the_dict σ ls ++ [(candidate kind i, relationship)])%list
    ∧ (1 ≤ i ≤ length (the_dict σ ls) + 1)%nat
    ∧ (∀ j, (1 ≤ j < i)%nat → dict_has (candidate kind j) (the_dict σ ls) = true)
    ∧ _isValidRelationshipKey (candidate kind i) = Ok true.
Proof.
  intros His Hls Hchecks.
  pose proof (passes_checks_parts _ _ _ _ Hchecks) as (_ & Hvalid & _).
  pose proof (_isValidRelationship_true _ _ _ Hvalid)
    as (source & target & ? & ? & kind & Hs & _ & _ & _ & Hrt & Hkind).
  destruct (probe_finds kind (the_dict σ ls)) as [key Hkey].
  pose proof (probe_seq_Some _ _ _ _ _ Hkey) as (i & Hi & -> & Hfree & Hbefore).
  exists kind, i, (put_dict ls (dict_set (candidate kind i) relationship (the_dict σ ls)) σ).
  split; [done|]. split; [|split; [|split; [lia|split]]].
  - cbn [add_relationships]. unfold relationships_attr at 1. rewrite Hls. cbn [bind].
    unfold _generateKey.
    assert (_isValidElement relationship = false) as ->
      by (destruct relationship; done).
    rewrite Hvalid. cbn [bind].
    rewrite (relationship_key_same _ _ _ _ ls kind (candidate kind i)) by done.
    cbn [bind]. by rewrite (_setRelationship_checked _ key0 _ _ _ ls).
  - by rewrite the_dict_put_eq, dict_set_fresh.
  - intros j Hj. apply Hbefore. lia.
  - by apply candidate_relationship_key.
Qed.

(** X14. On the same instance, when [is] holds between the
    relationshipType of the record and no key of the schema table (the
    string is equal to a key but is another object), [_generateKey] falls
    through both loops and returns None, and [add_relationships(r)]
    stores the record under the key None. *)
Theorem add_relationships_under_None self key0 relationship σ ls :
  (∀ v k, str_is v k = false) →
  _relationships self = Some ls →
  passes_checks self key0 relationship σ = true →
  ∃ σ',
    _generateKey subclass str_is self relationship (length (the_dict σ ls) + 1) σ
    = Ok VNone
    ∧ add_relationships subclass str_is self [relationship] σ = Ok σ'
    ∧ the_dict σ' ls = dict_set VNone relationship (the_dict σ ls).
Proof.
  intros His Hls Hchecks.
  pose proof (passes_checks_parts _ _ _ _ Hchecks) as (_ & Hvalid & _).
  pose proof (_isValidRelationship_true _ _ _ Hvalid)
    as (source & target & ? & ? & kind & Hs & _ & _ & _ & Hrt & Hkind).
  assert (_generateKey subclass str_is self relationship
            (length (the_dict σ ls) + 1) σ = Ok VNone) as Hgen.
  { unfold _generateKey.
    assert (_isValidElement relationship = false) as ->
      by (destruct relationship; done).
    rewrite Hvalid. cbn [bind]. by eapply relationship_key_never. }
  exists (put_dict ls (dict_set VNone relationship (the_dict σ ls)) σ).
  split; [done|]. split; [|apply the_dict_put_eq].
  cbn [add_relationships]. unfold relationships_attr at 1. rewrite Hls. cbn [bind].
  rewrite Hgen. cbn [bind]. by rewrite (_setRelationship_checked _ key0 _ _ _ ls).
Qed.

(** ** The bulk setter of [relationships] on such an instance *)

Lemma dict_get_Some_elem k v d : dict_get k d = Some v → (k, v) ∈ d.
Proof.
  induction d as [|[k' v'] d IH]; cbn; [done|].
  case_bool_decide as Hk.
  - intros [= ->]. subst. apply elem_of_cons. by left.
  - intros Hd. apply elem_of_cons. right. by apply IH.
Qed.

Lemma dict_keys_get k d : k ∈ dict_keys d ↔ ∃ v, dict_get k d = Some v.
Proof.
  split.
  - intros Hk. destruct (dict_has k d) eqn:Hhas.
    + unfold dict_has in Hhas. destruct (dict_get k d); [by eauto|done].
    + by apply dict_has_false_keys in Hhas.
  - intros [v Hv]. apply dict_has_keys. unfold dict_has. by rewrite Hv.
Qed.

(** The checks read the element store and the record, nothing else. *)
Lemma passes_checks_ext self key relationship σ σ1 :
  the_dict σ1 (_elements self) = the_dict σ (_elements self) →
  (∀ k, subscript σ1 relationship k = subscript σ relationship k) →
  passes_checks self key relationship σ1 = passes_checks self key relationship σ.
Proof.
  intros Hstore Hsub. unfold passes_checks, _isValidRelationship.
  by rewrite Hstore, !Hsub.
Qed.

Lemma subscript_ext relationship ls σ σ1 :
  relationship ≠ VDict ls →
  (∀ l', l' ≠ ls → the_dict σ1 l' = the_dict σ l') →
  ∀ k, subscript σ1 relationship k = subscript σ relationship k.
Proof.
  intros Hne Hagree k. destruct relationship as [| | | |lr]; try done.
  cbn. rewrite Hagree; [done|]. by intros ->.
Qed.

Lemma set_relationships_merge self ls l keys σ0 σ :
  _relationships self = Some ls → ls ≠ _elements self → l ≠ ls →
  (∀ l', l' ≠ ls → the_dict σ l' = the_dict σ0 l') →
  Forall (λ key, ∃ r, dict_get key (the_dict σ0 l) = Some r
                      ∧ passes_checks self key r σ0 = true
                      ∧ r ≠ VDict ls) keys →
  ∃ σ',
    set_relationships self l keys σ = Ok σ'
    ∧ (∀ l', l' ≠ ls → the_dict σ' l' = the_dict σ0 l')
    ∧ ∀ key, dict_get key (the_dict σ' ls)
             = if decide (key ∈ keys) then dict_get key (the_dict σ0 l)
               else dict_get key (the_dict σ ls).
Proof.
  intros Hls Hels Hl. revert σ.
  induction keys as [|key keys IH]; intros σ Hagree Hall.
  - exists σ. split; [done|]. split; [done|]. intros key.
    rewrite decide_False; [done|apply not_elem_of_nil].
  - apply Forall_cons in Hall as [(r & Hr & Hchecks & Hne) Hall].
    pose proof (passes_checks_parts _ _ _ _ Hchecks) as (Hkey & _).
    destruct (valid_relationship_key_str key Hkey) as [s ->].
    assert (passes_checks self (VStr s) r σ = true) as Hchecks'.
    { rewrite <- Hchecks. apply passes_checks_ext; [by apply Hagree|].
      by apply (subscript_ext _ ls). }
    set (σ1 := put_dict ls (dict_set (VStr s) r (the_dict σ ls)) σ).
    destruct (IH σ1) as (σ' & Hrun & Hagree' & Hget); [|done|].
    { intros l' Hl'. unfold σ1. rewrite the_dict_put_ne by done. by apply Hagree. }
    exists σ'. split; [|split; [done|]].
    + cbn [set_relationships].
      pose proof Hkey as Hkey'. unfold _isValidRelationshipKey in Hkey'.
      destruct (py_split (VStr s)) as [parts|]; cbn [bind] in *; [|done].
      destruct (unpack2 parts) as [pair|]; cbn [bind] in *; [|done].
      rewrite Hkey. cbn [bind negb].
      unfold dict_item. cbn [hashable]. rewrite (Hagree l Hl), Hr. cbn [bind].
      rewrite (_setRelationship_checked _ (VStr s) _ _ _ ls) by done.
      cbn [bind]. exact Hrun.
    + intros key. rewrite Hget. unfold σ1. rewrite the_dict_put_eq.
      destruct (decide (key = VStr s)) as [->|Hk].
      * rewrite dict_get_set_eq, Hr.
        rewrite (decide_True _ _ (list_elem_of_here _ _)). by case_decide.
      * rewrite dict_get_set_ne by done.
        destruct (decide (key ∈ keys)) as [Hin|Hin].
        -- rewrite decide_True; [done|]. apply elem_of_cons. by right.
        -- rewrite decide_False; [done|]. apply not_elem_of_cons. by split.
Qed.

(** X15. On an instance that has a relationship store, assigning
    [model.relationships] a dict (other than the store itself) whose
    entries all pass the checks merges it into the store: every key of the
    argument maps to the argument's value afterwards, every other key of
    the store keeps its value, and no other dict changes. The store is not
    replaced by the argument. *)
Theorem relationships_setter_merges self ls l σ :
  _relationships self = Some ls → ls ≠ _elements self → l ≠ ls →
  Forall (λ item, passes_checks self item.1 item.2 σ = true ∧ item.2 ≠ VDict ls)
    (the_dict σ l) →
  ∃ σ',
    relationships_setter repr self (VDict l) σ = Ok σ'
    ∧ (∀ l', l' ≠ ls → the_dict σ' l' = the_dict σ l')
    ∧ (∀ key r, dict_get key (the_dict σ l) = Some r →
                dict_get key (the_dict σ' ls) = Some r)
    ∧ (∀ key, dict_get key (the_dict σ l) = None →
              dict_get key (the_dict σ' ls) = dict_get key (the_dict σ ls)).
Proof.
  intros Hls Hels Hl Hall. rewrite Forall_forall in Hall.
  destruct (set_relationships_merge self ls l (dict_keys (the_dict σ l)) σ σ)
    as (σ' & Hrun & Hagree & Hget); try done.
  { apply Forall_forall. intros key [r Hr]%dict_keys_get.
    exists r. split; [done|]. by apply (Hall (key, r)), dict_get_Some_elem. }
  exists σ'. split; [done|]. split; [done|]. split.
  - intros key r Hr. rewrite Hget, decide_True; [done|].
    apply dict_keys_get. by exists r.
  - intros key Hnone. rewrite Hget, decide_False; [done|].
    intros [r Hr]%dict_keys_get. congruence.
Qed.

End Generator.


(** ** Examples for the properties above *)

Lemma candidate_keys_valid_witness :
  "block" ∈ _validElements.*1
  ∧ "partProperty" ∈ _validRelationships.*1
  ∧ _isValidElementKey (candidate "block" 7) = Ok true
  ∧ _isValidRelationshipKey (candidate "partProperty" 7) = Ok true.
Proof.
  assert ("block" ∈ _validElements.*1) as He
    by (apply (bool_decide_unpack _); vm_compute; exact I).
  assert ("partProperty" ∈ _validRelationships.*1) as Hr
    by (apply (bool_decide_unpack _); vm_compute; exact I).
  split; [exact He|]. split; [exact Hr|].
  exact (candidate_keys_valid "block" "partProperty" 7 He Hr).
Defined.

Lemma generated_key_fresh_witness :
  _isValidElement (VInst Block 4) = true
  ∧ ∃ kind i,
      _generateKey no_subclass interned wired (VInst Block 4)
        (length (the_dict wired_scene (_elements wired)) + 1) wired_scene
      = Ok (candidate kind i)
      ∧ kind ∈ _validElements.*1
      ∧ (1 ≤ i ≤ length (the_dict wired_scene (_elements wired)) + 1)%nat
      ∧ dict_has (candidate kind i) (the_dict wired_scene (_elements wired)) = false
      ∧ _isValidElementKey (candidate kind i) = Ok true.
Proof.
  split; [reflexivity|].
  exact (generated_key_fresh no_subclass interned wired Block 4 wired_scene eq_refl).
Defined.

Lemma generated_key_lowest_witness :
  (∀ a b, no_subclass a b = false)
  ∧ ("block", Block) ∈ _validElements
  ∧ ∃ i,
      _generateKey no_subclass interned wired (VInst Block 4)
        (length (the_dict wired_scene (_elements wired)) + 1) wired_scene
      = Ok (candidate "block" i)
      ∧ (1 ≤ i ≤ length (the_dict wired_scene (_elements wired)) + 1)%nat
      ∧ dict_has (candidate "block" i) (the_dict wired_scene (_elements wired)) = false
      ∧ ∀ j, (1 ≤ j < i)%nat →
             dict_has (candidate "block" j) (the_dict wired_scene (_elements wired)) = true.
Proof.
  assert (("block", Block) ∈ _validElements) as Hin
    by (apply (bool_decide_unpack _); vm_compute; exact I).
  split; [reflexivity|]. split; [exact Hin|].
  exact (generated_key_lowest no_subclass interned wired "block" Block 4 wired_scene
           (λ _ _, eq_refl) Hin).
Defined.

Lemma add_elements_appends_witness :
  Forall (λ e, _isValidElement e = true) [VInst Requirement 4; VInst Block 2]
  ∧ ∃ keys σ',
      add_elements sample_repr sample_uuid1 no_subclass interned wired
        [VInst Requirement 4; VInst Block 2] wired_scene = Ok σ'
      ∧ length keys = 2
      ∧ the_dict σ' (_elements wired)
        = (the_dict wired_scene (_elements wired)
           ++ zip keys [VInst Requirement 4; VInst Block 2])%list
      ∧ Forall (λ key, _isValidElementKey key = Ok true) keys
      ∧ uuid_calls σ' = (uuid_calls wired_scene + 2)%nat.
Proof.
  assert (Forall (λ e, _isValidElement e = true) [VInst Requirement 4; VInst Block 2])
    as Hall by (repeat constructor).
  split; [exact Hall|].
  exact (add_elements_appends sample_repr sample_uuid1 no_subclass interned wired
           _ wired_scene Hall).
Defined.

Lemma __setitem___success_witness :
  let m := __init__ VNone None None in
  let σ' := inserted sample_uuid1 m (VStr "block-1") Block 2 wired_scene in
  __setitem__ sample_repr sample_uuid1 m (VStr "block-1") (VInst Block 2) wired_scene = Ok σ'
  ∧ ((_isValidElementKey (VStr "block-1") = Ok true
      ∧ _isValidElement (VInst Block 2) = true
      ∧ ∃ c l, VInst Block 2 = VInst c l
               ∧ σ' = inserted sample_uuid1 m (VStr "block-1") c l wired_scene)
     ∨ (_isValidRelationshipKey (VStr "block-1") = Ok true
        ∧ passes_checks m (VStr "block-1") (VInst Block 2) wired_scene = true
        ∧ ∃ ls, _relationships m = Some ls
                ∧ σ' = put_dict ls
                         (dict_set (VStr "block-1") (VInst Block 2) (the_dict wired_scene ls))
                         wired_scene)).
Proof.
  intros m σ'. split; [reflexivity|].
  exact (__setitem___success sample_repr sample_uuid1 m (VStr "block-1")
           (VInst Block 2) wired_scene σ' eq_refl).
Defined.

Lemma element_round_trip_witness :
  let m := __init__ VNone None None in
  _isValidElementKey (VStr "requirement-3") = Ok true
  ∧ _isValidElement (VInst Block 2) = true
  ∧ ∃ σ',
      __setitem__ sample_repr sample_uuid1 m (VStr "requirement-3") (VInst Block 2) wired_scene
      = Ok σ'
      ∧ __getitem__ sample_repr m (VStr "requirement-3") σ' = Ok (VInst Block 2)
      ∧ get_attr σ' 2 "uuid" = Some (VStr (sample_uuid1 (uuid_calls wired_scene)))
      ∧ uuid_calls σ' = S (uuid_calls wired_scene).
Proof.
  intros m. split; [reflexivity|]. split; [reflexivity|].
  exact (element_round_trip sample_repr sample_uuid1 m (VStr "requirement-3")
           Block 2 wired_scene eq_refl eq_refl).
Defined.

Lemma __setitem___frame_witness :
  let m := __init__ VNone None None in
  let σ' := inserted sample_uuid1 m (VStr "block-1") Block 2 wired_scene in
  __setitem__ sample_repr sample_uuid1 m (VStr "block-1") (VInst Block 2) wired_scene = Ok σ'
  ∧ (∀ l' k,
       (l' ≠ _elements m ∧ _relationships m ≠ Some l') ∨ k ≠ VStr "block-1" →
       dict_get k (the_dict σ' l') = dict_get k (the_dict wired_scene l'))
  ∧ (∀ l' name,
       (∀ c, VInst Block 2 ≠ VInst c l') ∨ name ≠ "uuid" →
       get_attr σ' l' name = get_attr wired_scene l' name)
  ∧ next_loc σ' = next_loc wired_scene.
Proof.
  intros m σ'. split; [reflexivity|].
  exact (__setitem___frame sample_repr sample_uuid1 m (VStr "block-1")
           (VInst Block 2) wired_scene σ' eq_refl).
Defined.

Lemma key_kinds_exclusive_witness :
  _isValidElementKey (VStr "block-1") = Ok true
  ∧ _isValidRelationshipKey (VStr "partProperty-1") = Ok true
  ∧ _isValidRelationshipKey (VStr "block-1") = Ok false
  ∧ _isValidElementKey (VStr "partProperty-1") = Ok false.
Proof.
  split; [reflexivity|]. split; [reflexivity|].
  exact (key_kinds_exclusive (VStr "block-1") (VStr "partProperty-1") eq_refl eq_refl).
Defined.

Lemma stored_relationship_ends_witness :
  let σ' := put_dict 11 (dict_set (VStr "partProperty-1") (VDict 5) (the_dict wired_scene 11))
              wired_scene in
  _setRelationship wired (VStr "partProperty-1") (VDict 5) wired_scene = Ok σ'
  ∧ ∃ source target ls lt kind,
      subscript wired_scene (VDict 5) "source" = Ok source
      ∧ dict_get source (the_dict wired_scene (_elements wired)) = Some (VInst Block ls)
      ∧ subscript wired_scene (VDict 5) "target" = Ok target
      ∧ dict_get target (the_dict wired_scene (_elements wired)) = Some (VInst Block lt)
      ∧ subscript wired_scene (VDict 5) "relationshipType" = Ok (VStr kind)
      ∧ kind ∈ _validRelationships.*1.
Proof.
  intros σ'. split; [reflexivity|].
  exact (stored_relationship_ends wired (VStr "partProperty-1") (VDict 5) wired_scene σ'
           eq_refl).
Defined.

Lemma relationship_round_trip_witness :
  _relationships wired = Some 11
  ∧ passes_checks wired (VStr "partProperty-1") (VDict 5) wired_scene = true
  ∧ dict_has (VStr "partProperty-1") (the_dict wired_scene (_elements wired)) = false
  ∧ ∃ σ',
      __setitem__ sample_repr sample_uuid1 wired (VStr "partProperty-1") (VDict 5) wired_scene
      = Ok σ'
      ∧ the_dict σ' 11
        = dict_set (VStr "partProperty-1") (VDict 5) (the_dict wired_scene 11)
      ∧ __getitem__ sample_repr wired (VStr "partProperty-1") σ' = Ok (VDict 5).
Proof.
  split; [reflexivity|]. split; [reflexivity|]. split; [reflexivity|].
  exact (relationship_round_trip sample_repr sample_uuid1 wired
           (VStr "partProperty-1") (VDict 5) wired_scene 11 eq_refl eq_refl eq_refl).
Defined.

Lemma store_valid_kept_witness :
  let calls := [ by_set (VStr "block-7") (VInst Block 2);
                 by_add (VInst Requirement 4);
                 by_package (VStr "Vehicle") ] in
  store_valid wired wired_scene
  ∧ ∃ ids σ',
      insert_all sample_repr sample_uuid1 no_subclass interned wired calls wired_scene
      = Ok (ids, σ')
      ∧ store_valid wired σ'
      ∧ ∀ k, dict_has k (the_dict wired_scene (_elements wired)) = true →
             dict_has k (the_dict σ' (_elements wired)) = true.
Proof.
  intros calls.
  assert (store_valid wired wired_scene) as Hinv by (repeat constructor).
  split; [exact Hinv|].
  eexists _, _. split; [vm_compute; reflexivity|].
  eapply (store_valid_kept sample_repr sample_uuid1 no_subclass interned
            wired calls wired_scene).
  - exact Hinv.
  - vm_compute; reflexivity.
Defined.

Lemma add_relationships_appends_witness :
  (∀ v k, interned v k = bool_decide (v = VStr k))
  ∧ _relationships wired = Some 11
  ∧ passes_checks wired (VStr "partProperty-1") (VDict 5) wired_scene = true
  ∧ ∃ kind i σ',
      subscript wired_scene (VDict 5) "relationshipType" = Ok (VStr kind)
      ∧ add_relationships no_subclass interned wired [VDict 5] wired_scene = Ok σ'
      ∧ the_dict σ' 11 = (the_dict wired_scene 11 ++ [(candidate kind i, VDict 5)])%list
      ∧ (1 ≤ i ≤ length (the_dict wired_scene 11) + 1)%nat
      ∧ (∀ j, (1 ≤ j < i)%nat → dict_has (candidate kind j) (the_dict wired_scene 11) = true)
      ∧ _isValidRelationshipKey (candidate kind i) = Ok true.
Proof.
  split; [reflexivity|]. split; [reflexivity|]. split; [reflexivity|].
  exact (add_relationships_appends no_subclass interned wired
           (VStr "partProperty-1") (VDict 5) wired_scene 11 (λ _ _, eq_refl) eq_refl eq_refl).
Defined.

Lemma add_relationships_under_None_witness :
  (∀ v k, never_same v k = false)
  ∧ _relationships wired = Some 11
  ∧ passes_checks wired (VStr "partProperty-1") (VDict 5) wired_scene = true
  ∧ ∃ σ',
      _generateKey no_subclass never_same wired (VDict 5)
        (length (the_dict wired_scene 11) + 1) wired_scene = Ok VNone
      ∧ add_relationships no_subclass never_same wired [VDict 5] wired_scene = Ok σ'
      ∧ the_dict σ' 11 = dict_set VNone (VDict 5) (the_dict wired_scene 11).
Proof.
  split; [reflexivity|]. split; [reflexivity|]. split; [reflexivity|].
  exact (add_relationships_under_None no_subclass never_same wired
           (VStr "partProperty-1") (VDict 5) wired_scene 11 (λ _ _, eq_refl) eq_refl eq_refl).
Defined.

Lemma relationships_setter_merges_witness :
  _relationships wired = Some 11
  ∧ (11 ≠ _elements wired)
  ∧ (10 ≠ 11)
  ∧ Forall (λ item, passes_checks wired item.1 item.2 wired_scene = true
                    ∧ item.2 ≠ VDict 11) (the_dict wired_scene 10)
  ∧ ∃ σ',
      relationships_setter sample_repr wired (VDict 10) wired_scene = Ok σ'
      ∧ (∀ l', l' ≠ 11 → the_dict σ' l' = the_dict wired_scene l')
      ∧ (∀ key r, dict_get key (the_dict wired_scene 10) = Some r →
                  dict_get key (the_dict σ' 11) = Some r)
      ∧ (∀ key, dict_get key (the_dict wired_scene 10) = None →
                dict_get key (the_dict σ' 11) = dict_get key (the_dict wired_scene 11)).
Proof.
  assert (11 ≠ _elements wired) as H1 by (cbn; lia).
  assert (10 ≠ 11) as H2 by lia.
  assert (Forall (λ item, passes_checks wired item.1 item.2 wired_scene = true
                          ∧ item.2 ≠ VDict 11) (the_dict wired_scene 10)) as H3
    by (repeat constructor; discriminate).
  split; [reflexivity|]. split; [exact H1|]. split; [exact H2|]. split; [exact H3|].
  exact (relationships_setter_merges sample_repr wired 11 10 wired_scene eq_refl H1 H2 H3).
Defined.

Lemma absent_target_error_witness :
  subscript wired_scene (VDict 7) "source" = Ok (VStr "block-1")
  ∧ key_in (VStr "block-1") (the_dict wired_scene (_elements wired)) = Ok true
  ∧ subscript wired_scene (VDict 7) "target" = Ok (VStr "block-9")
  ∧ key_in (VStr "block-9") (the_dict wired_scene (_elements wired)) = Ok false
  ∧ _setRelationship wired (VStr "partProperty-1") (VDict 7) wired_scene
    = Raise (TypeError ("block-9" ++ " does not exist in model.")).
Proof.
  split; [reflexivity|]. split; [reflexivity|]. split; [reflexivity|].
  split; [reflexivity|].
  exact (absent_target_error wired (VStr "partProperty-1") (VDict 7) wired_scene
           (VStr "block-1") "block-9" eq_refl eq_refl eq_refl eq_refl).
Defined.

Lemma invalid_key_ValueError_witness :
  _isValidElementKey (VStr "block-x") ≠ Ok true
  ∧ _isValidRelationshipKey (VStr "block-x") ≠ Ok true
  ∧ is_ValueError
      (__setitem__ sample_repr sample_uuid1 wired (VStr "block-x") VNone wired_scene) = true.
Proof.
  assert (_isValidElementKey (VStr "block-x") ≠ Ok true) as H1 by discriminate.
  assert (_isValidRelationshipKey (VStr "block-x") ≠ Ok true) as H2 by discriminate.
  split; [exact H1|]. split; [exact H2|].
  exact (invalid_key_ValueError sample_repr sample_uuid1 wired "block-x" VNone wired_scene
           H1 H2).
Defined.

Lemma unknown_kind_error_witness :
  split "-" "port-1" = ["port"; "1"]
  ∧ ("port" ∉ _validElements.*1)
  ∧ ("port" ∉ _validRelationships.*1)
  ∧ __setitem__ sample_repr sample_uuid1 wired (VStr "port-1") VNone wired_scene
    = Raise (ValueError (sample_repr (VStr "port-1") ++ invalid_key)).
Proof.
  assert ("port" ∉ _validElements.*1) as H1
    by (apply (bool_decide_unpack _); vm_compute; exact I).
  assert ("port" ∉ _validRelationships.*1) as H2
    by (apply (bool_decide_unpack _); vm_compute; exact I).
  split; [reflexivity|]. split; [exact H1|]. split; [exact H2|].
  exact (unknown_kind_error sample_repr sample_uuid1 wired "port-1" "port" "1"
           VNone wired_scene eq_refl H1 H2).
Defined.
